(** * The notes page (src/pages/Note.js): a shallow embedding

    The React component [Note] keeps the user's notes, mirrored from a
    Firestore collection, together with the draft edited in a modal and the
    result of the title search.  Its event handlers are embedded as functions
    from the state captured by the handler's closure to the sequence of
    effects the handler performs (state setters, awaited write requests,
    timers, console output), or to a [TypeError] when the handler throws
    before performing any of them. *)

From Stdlib Require Import ZArith NArith Ascii String List Bool Lia.
From stdpp Require Import base option list gmap strings.

Local Open Scope Z_scope.

(** ** JavaScript strings

    A string is a sequence of UTF-16 code units, numbers below 2^16.  The
    functions below are those of the language ([trim], [includes],
    [toLowerCase]), written for every such sequence. *)
Definition jsstring := list N.

#[global] Instance jsstring_eq_dec : EqDecision jsstring.
Proof. unfold jsstring. apply _. Defined.

(** A string literal of the source: its characters are ASCII, one code unit
    each. *)
Definition str (s : string) : jsstring := map N_of_ascii (list_ascii_of_string s).

Coercion str : string >-> jsstring.

(** The case data of the Unicode standard, which the language takes from
    its environment: the lower-case mapping of a code point apart from its
    context (that of SpecialCasing where there is one, else the simple
    mapping, else the code point itself), and the properties Cased and
    Case_Ignorable. *)
Class Unicode := {
  lowercase : N -> list N;
  cased : N -> bool;
  caseIgnorable : N -> bool
}.

Module JsString.

Definition isEmpty (s : jsstring) : bool :=
  match s with
  | [] => true
  | _ :: _ => false
  end.

(** WhiteSpace and LineTerminator: TAB, LF, VT, FF, CR, the space
    separators (SP, NBSP, U+1680, U+2000..U+200A, U+202F, U+205F, U+3000),
    LS, PS and ZWNBSP. *)
Definition isWhiteSpace (c : N) : bool :=
  ((c =? 9) || (c =? 10) || (c =? 11) || (c =? 12) || (c =? 13)
   || (c =? 32) || (c =? 160) || (c =? 5760)
   || ((8192 <=? c) && (c <=? 8202))
   || (c =? 8232) || (c =? 8233) || (c =? 8239) || (c =? 8287)
   || (c =? 12288) || (c =? 65279))%N.

Fixpoint trimStart (s : jsstring) : jsstring :=
  match s with
  | [] => []
  | c :: s' => if isWhiteSpace c then trimStart s' else s
  end.

Fixpoint trimEnd (s : jsstring) : jsstring :=
  match s with
  | [] => []
  | c :: s' =>
      match trimEnd s' with
      | [] => if isWhiteSpace c then [] else [c]
      | r => c :: r
      end
  end.

Definition trim (s : jsstring) : jsstring := trimEnd (trimStart s).

Fixpoint startsWith (s sub : jsstring) {struct sub} : bool :=
  match sub, s with
  | [], _ => true
  | _ :: _, [] => false
  | b :: sub', a :: s' => (a =? b)%N && startsWith s' sub'
  end.

(** [s.includes(sub)]: [sub] occurs in [s] at some position. *)
Fixpoint includes (s sub : jsstring) : bool :=
  startsWith s sub
  || match s with
     | [] => false
     | _ :: s' => includes s' sub
     end.

(** *** Code points *)

Definition isLeadingSurrogate (c : N) : bool := ((55296 <=? c) && (c <=? 56319))%N.

Definition isTrailingSurrogate (c : N) : bool := ((56320 <=? c) && (c <=? 57343))%N.

(** StringToCodePoints: a leading surrogate followed by a trailing one is
    one code point, every other code unit is a code point of its own. *)
Fixpoint toCodePoints (s : jsstring) : list N :=
  match s with
  | [] => []
  | c :: s' =>
      match s' with
      | d :: s'' =>
          if isLeadingSurrogate c && isTrailingSurrogate d
          then ((c - 55296) * 1024 + (d - 56320) + 65536)%N :: toCodePoints s''
          else c :: toCodePoints s'
      | [] => [c]
      end
  end.

(** UTF16EncodeCodePoint and CodePointsToString. *)
Definition encodeCodePoint (cp : N) : jsstring :=
  if (cp <=? 65535)%N then [cp]
  else [ ((cp - 65536) / 1024 + 55296)%N; ((cp - 65536) mod 1024 + 56320)%N ].

Definition ofCodePoints (cps : list N) : jsstring := flat_map encodeCodePoint cps.

(** *** [toLowerCase]

    The default case conversion of Unicode, without a locale: every code
    point is replaced by its lower-case mapping, except that a capital
    sigma U+03A3 in final position becomes the final sigma U+03C2. *)

(** The first of [cps] that is not case-ignorable is a cased letter; a
    code point that is case-ignorable is passed over also when it is cased
    as well. *)
Fixpoint casedLetterNext `{U : Unicode} (cps : list N) : bool :=
  match cps with
  | [] => false
  | c :: cps' => if caseIgnorable c then casedLetterNext cps' else cased c
  end.

(** Final_Sigma: a cased letter before (case-ignorable code points apart),
    and none after.  [before] holds the code points before, the nearest
    first. *)
Definition finalSigma `{U : Unicode} (before after : list N) : bool :=
  casedLetterNext before && negb (casedLetterNext after).

Fixpoint lowerCodePoints `{U : Unicode} (before cps : list N) : list N :=
  match cps with
  | [] => []
  | c :: after =>
      (if (c =? 931)%N && finalSigma before after then [962%N] else lowercase c)
      ++ lowerCodePoints (c :: before) after
  end.

Definition toLowerCase `{U : Unicode} (s : jsstring) : jsstring :=
  ofCodePoints (lowerCodePoints [] (toCodePoints s)).

(** *** The Latin-1 range *)

(** The strings whose code units are all below U+0100. *)
Definition isLatin1 (s : jsstring) : Prop := Forall (fun c => (c < 256)%N) s.

(** The upper-case letters below U+0100: A-Z and U+00C0..U+00DE except the
    multiplication sign U+00D7. *)
Definition isUpperLatin1 (c : N) : bool :=
  (((65 <=? c) && (c <=? 90))
   || ((192 <=? c) && (c <=? 222) && negb (c =? 215)))%N.

(** The lower-case mapping of Unicode below U+0100. *)
Definition lowerLatin1 (c : N) : N :=
  if isUpperLatin1 c then (c + 32)%N else c.

(** The case data that agree with Unicode below U+0100. *)
Definition lowercaseLatin1 `{U : Unicode} : Prop :=
  forall c, (c < 256)%N -> lowercase c = [ lowerLatin1 c ].

End JsString.

(** ** JavaScript values

    The primitive values a Firestore field or a piece of component state can
    hold here.  Numbers are restricted to integers (time stamps are
    milliseconds since the epoch), so the only falsy number is 0. *)
Inductive value :=
| VUndefined
| VNull
| VBool (b : bool)
| VNumber (n : Z)
| VString (s : jsstring).

#[global] Instance value_eq_dec : EqDecision value.
Proof. solve_decision. Defined.

(** An object with primitive fields, as a finite map from property names. *)
Abbreviation obj := (gmap string value).

Inductive error := TypeError.

(** The outcome of code that may throw. *)
Inductive result (A : Type) :=
| Ok (a : A)
| Throw (e : error).
Arguments Ok {A} a.
Arguments Throw {A} e.

Module Js.

Definition bind {A B} (r : result A) (k : A -> result B) : result B :=
  match r with
  | Ok a => k a
  | Throw e => Throw e
  end.

(** [a === b] on primitive values. *)
Definition strictEq (a b : value) : bool := bool_decide (a = b).

Definition toBoolean (v : value) : bool :=
  match v with
  | VUndefined | VNull => false
  | VBool b => b
  | VNumber n => negb (n =? 0)
  | VString s => negb (JsString.isEmpty s)
  end.

(** [a || b] *)
Definition or (a b : value) : value := if toBoolean a then a else b.

(** [v.trim()]: only a string has the method; on [undefined] and [null]
    the property access throws, on a boolean or a number the call does. *)
Definition trim (v : value) : result jsstring :=
  match v with
  | VString s => Ok (JsString.trim s)
  | _ => Throw TypeError
  end.

(** [v.toLowerCase()] *)
Definition toLowerCase `{U : Unicode} (v : value) : result jsstring :=
  match v with
  | VString s => Ok (JsString.toLowerCase s)
  | _ => Throw TypeError
  end.

(** [o.k] on an object: [undefined] when the property is absent. *)
Definition get (o : obj) (k : string) : value := default VUndefined (o !! k).

(** [l[i]] on an array: [None] stands for [undefined]. *)
Definition index {A} (l : list A) (i : Z) : option A :=
  if i <? 0 then None else l !! Z.to_nat i.

(** [o.k] where [o] may be [undefined]: the access throws then. *)
Definition getOf (o : option obj) (k : string) : result value :=
  match o with
  | Some o => Ok (get o k)
  | None => Throw TypeError
  end.

(** [l.filter(p)] for a predicate that may throw: the first exception
    aborts the whole call. *)
Fixpoint filter {A} (p : A -> result bool) (l : list A) : result (list A) :=
  match l with
  | [] => Ok []
  | x :: l' =>
      bind (p x) (fun b =>
      bind (filter p l') (fun r =>
      Ok (if b then x :: r else r)))
  end.

(** [l.findIndex(p)]: the first index whose element satisfies [p], -1
    when there is none. *)
Fixpoint findIndexFrom {A} (p : A -> bool) (l : list A) (i : Z) : Z :=
  match l with
  | [] => -1
  | x :: l' => if p x then i else findIndexFrom p l' (i + 1)
  end.

Definition findIndex {A} (p : A -> bool) (l : list A) : Z := findIndexFrom p l 0.

End Js.

(** ** The Firestore client, as far as the page uses it *)
Module Firestore.

(** A reference is the list of path segments given to [doc] or
    [collection] after [db]. *)
Definition path := list value.

Definition collection (segments : list value) : path := segments.
Definition doc (segments : list value) : path := segments.

(** A document of a query snapshot: [d.id] and [d.data()]. *)
Record document := { doc_id : jsstring; doc_data : obj }.

Inductive direction := asc | desc.

Record query := { q_collection : path; q_orderBy : string * direction }.

Inductive FirestoreError := FsError (code : string).

End Firestore.

(** The object [noteData] built by [addOrEditNote]. *)
Module NoteData.
Record t := { title : value; text : value; edit : value; tag : value }.
End NoteData.

(** ** The component *)

Import Firestore.

(** The requests the page sends to the store. *)
Inductive request :=
| AddDoc (ref : path) (data : NoteData.t)
| UpdateDoc (ref : path) (data : NoteData.t)
| DeleteDoc (ref : path).

(** [errorModal] is first an object and becomes [false] in
    [closeErrorModal]. *)
Inductive errorModalState :=
| ErrorModalObj (isOpen : bool) (message : jsstring)
| ErrorModalFalse.

(** The user of [useAuthState]: [None] stands for [null] and [undefined]. *)
Record User := { uid : jsstring }.

(** The values of one render: the [useState] cells and the [user] of
    [useAuthState]; a handler reads them from its closure. *)
Record state := {
  notes : list obj;
  newNote : value;
  newTitle : value;
  lastEdited : value;
  tag : value;
  searchQuery : jsstring;
  filteredNotes : list obj;
  isModalOpen : bool;
  isAnimating : bool;
  editIndex : option Z;
  loading : bool;
  errorModal : errorModalState;
  user : option User
}.

(** The calls of the [useState] setters. *)
Inductive setter :=
| setNotes (l : list obj)
| setNewNote (v : value)
| setNewTitle (v : value)
| setLastEdited (v : value)
| setTag (v : value)
| setSearchQuery (q : jsstring)
| setFilteredNotes (l : list obj)
| setIsModalOpen (b : bool)
| setIsAnimating (b : bool)
| setEditIndex (i : option Z)
| setLoading (b : bool)
| setErrorModal (e : errorModalState).

(** What a handler does, in program order. *)
Inductive action :=
| Call (u : setter)
| Await (r : request)
| SetTimeout (callback : setter) (delay : Z)
| ConsoleError (message : string) (e : FirestoreError).

Definition initialState (u : option User) : state :=
  {| notes := []; newNote := VString ""; newTitle := VString "";
     lastEdited := VString ""; tag := VString ""; searchQuery := "";
     filteredNotes := []; isModalOpen := false; isAnimating := false;
     editIndex := None; loading := true;
     errorModal := ErrorModalObj false ""; user := u |}.

Definition openModal (s : state) (index : option Z) (now : Z) : result (list action) :=
  match index with
  | Some i =>
      match Js.index (notes s) i with
      | None => Throw TypeError
      | Some note =>
          Ok [ Call (setNewTitle (Js.get note "title"));
               Call (setNewNote (Js.or (Js.get note "text") (VString "")));
               Call (setLastEdited (Js.or (Js.get note "edit") (VNumber now)));
               Call (setTag (Js.get note "tag"));
               Call (setEditIndex (Some i));
               Call (setIsModalOpen true);
               SetTimeout (setIsAnimating true) 0 ]
      end
  | None =>
      Ok [ Call (setNewTitle (VString ""));
           Call (setNewNote (VString ""));
           Call (setLastEdited (VNumber now));
           Call (setTag (VString ""));
           Call (setEditIndex None);
           Call (setIsModalOpen true);
           SetTimeout (setIsAnimating true) 0 ]
  end.

Definition closeModal : list action :=
  [ Call (setIsAnimating false); SetTimeout (setIsModalOpen false) 700 ].

Definition closeErrorModal : list action :=
  [ Call (setErrorModal ErrorModalFalse) ].

(** [newTitle.trim() && newNote.trim() && lastEdited && user], evaluated
    left to right with the short cuts of [&&]. *)
Definition allFieldsFilled (s : state) : result bool :=
  Js.bind (Js.trim (newTitle s)) (fun t =>
  if JsString.isEmpty t then Ok false else
  Js.bind (Js.trim (newNote s)) (fun b =>
  if JsString.isEmpty b then Ok false else
  if negb (Js.toBoolean (lastEdited s)) then Ok false else
  Ok (bool_decide (is_Some (user s))))).

Definition addOrEditNote (s : state) (now : Z) : result (list action) :=
  Js.bind (allFieldsFilled s) (fun filled =>
  match filled, user s with
  | true, Some u =>
      let currentStamp := now in
      let noteData :=
        {| NoteData.title := newTitle s; NoteData.text := newNote s;
           NoteData.edit := VNumber currentStamp; NoteData.tag := tag s |} in
      match editIndex s with
      | Some i =>
          Js.bind (Js.getOf (Js.index (notes s) i) "id") (fun id =>
          let noteRef := doc [VString "users"; VString (uid u); VString "notes"; id] in
          Ok (Await (UpdateDoc noteRef noteData) :: closeModal))
      | None =>
          Ok (Await (AddDoc (collection [VString "users"; VString (uid u); VString "notes"])
                       noteData) :: closeModal)
      end
  | _, _ =>
      Ok [ Call (setErrorModal (ErrorModalObj true "Please fill in all fields.")) ]
  end).

Definition deleteNote (s : state) : result (list action) :=
  match editIndex s, user s with
  | Some i, Some u =>
      Js.bind (Js.getOf (Js.index (notes s) i) "id") (fun id =>
      let noteRef := doc [VString "users"; VString (uid u); VString "notes"; id] in
      Ok (Await (DeleteDoc noteRef) :: closeModal))
  | _, _ => Ok []
  end.

(** The callback of [notes.filter] in [handleSearch]. *)
Definition titleIncludes `{U : Unicode} (searchQuery : jsstring) (note : obj) : result bool :=
  Js.bind (Js.toLowerCase (Js.get note "title")) (fun t =>
  Ok (JsString.includes t (JsString.toLowerCase searchQuery))).

Definition handleSearch `{U : Unicode} (s : state) : result (list action) :=
  if JsString.isEmpty (searchQuery s) then Ok [ Call (setFilteredNotes (notes s)) ]
  else
    Js.bind (Js.filter (titleIncludes (searchQuery s)) (notes s)) (fun filterBySearch =>
    Ok [ Call (setFilteredNotes filterBySearch) ]).

(** The list [handleSearch] stores, as a function of the list of notes and
    the query. *)
Definition searchFilter `{U : Unicode} (notes : list obj) (searchQuery : jsstring) :
  result (list obj) :=
  if JsString.isEmpty searchQuery then Ok notes
  else Js.filter (titleIncludes searchQuery) notes.

Definition getBorderColor (tag : value) : string :=
  if Js.strictEq tag (VString "Work") then "border-red-500"
  else if Js.strictEq tag (VString "School") then "border-blue-500"
  else if Js.strictEq tag (VString "Personal") then "border-yellow-500"
  else "border-gray-500".

Definition getFontColor (tag : value) : string :=
  if Js.strictEq tag (VString "Work") then "text-red-500"
  else if Js.strictEq tag (VString "School") then "text-blue-500"
  else if Js.strictEq tag (VString "Personal") then "text-yellow-500"
  else "text-gray-500".

(** [{ id: doc.id, ...doc.data() }]: the fields of the data are spread
    after [id]. *)
Definition noteOfDoc (d : document) : obj :=
  doc_data d ∪ {[ "id" := VString (doc_id d) ]}.

(** The two callbacks given to [onSnapshot]. *)
Definition onNext (docs : list document) : list action :=
  let updatedNotes := map noteOfDoc docs in
  [ Call (setNotes updatedNotes); Call (setLoading false) ].

Definition onError (e : FirestoreError) : list action :=
  [ ConsoleError "Error fetching notes: " e; Call (setLoading false) ].

(** The effect of [useEffect]: with a user, the query it subscribes to;
    without one, nothing. *)
Definition notesEffect (u : option User) : option query :=
  match u with
  | Some u =>
      let notesRef := collection [VString "users"; VString (uid u); VString "notes"] in
      Some {| q_collection := notesRef; q_orderBy := ("edit", desc) |}
  | None => None
  end.

(** ** The runtime around the handlers *)

(** A setter replaces one cell of the state. *)
Definition applySetter (u : setter) (s : state) : state :=
  match u with
  | setNotes l =>
      {| notes := l; newNote := newNote s; newTitle := newTitle s;
         lastEdited := lastEdited s; tag := tag s; searchQuery := searchQuery s;
         filteredNotes := filteredNotes s; isModalOpen := isModalOpen s;
         isAnimating := isAnimating s; editIndex := editIndex s; loading := loading s;
         errorModal := errorModal s; user := user s |}
  | setNewNote v =>
      {| notes := notes s; newNote := v; newTitle := newTitle s;
         lastEdited := lastEdited s; tag := tag s; searchQuery := searchQuery s;
         filteredNotes := filteredNotes s; isModalOpen := isModalOpen s;
         isAnimating := isAnimating s; editIndex := editIndex s; loading := loading s;
         errorModal := errorModal s; user := user s |}
  | setNewTitle v =>
      {| notes := notes s; newNote := newNote s; newTitle := v;
         lastEdited := lastEdited s; tag := tag s; searchQuery := searchQuery s;
         filteredNotes := filteredNotes s; isModalOpen := isModalOpen s;
         isAnimating := isAnimating s; editIndex := editIndex s; loading := loading s;
         errorModal := errorModal s; user := user s |}
  | setLastEdited v =>
      {| notes := notes s; newNote := newNote s; newTitle := newTitle s;
         lastEdited := v; tag := tag s; searchQuery := searchQuery s;
         filteredNotes := filteredNotes s; isModalOpen := isModalOpen s;
         isAnimating := isAnimating s; editIndex := editIndex s; loading := loading s;
         errorModal := errorModal s; user := user s |}
  | setTag v =>
      {| notes := notes s; newNote := newNote s; newTitle := newTitle s;
         lastEdited := lastEdited s; tag := v; searchQuery := searchQuery s;
         filteredNotes := filteredNotes s; isModalOpen := isModalOpen s;
         isAnimating := isAnimating s; editIndex := editIndex s; loading := loading s;
         errorModal := errorModal s; user := user s |}
  | setSearchQuery q =>
      {| notes := notes s; newNote := newNote s; newTitle := newTitle s;
         lastEdited := lastEdited s; tag := tag s; searchQuery := q;
         filteredNotes := filteredNotes s; isModalOpen := isModalOpen s;
         isAnimating := isAnimating s; editIndex := editIndex s; loading := loading s;
         errorModal := errorModal s; user := user s |}
  | setFilteredNotes l =>
      {| notes := notes s; newNote := newNote s; newTitle := newTitle s;
         lastEdited := lastEdited s; tag := tag s; searchQuery := searchQuery s;
         filteredNotes := l; isModalOpen := isModalOpen s;
         isAnimating := isAnimating s; editIndex := editIndex s; loading := loading s;
         errorModal := errorModal s; user := user s |}
  | setIsModalOpen b =>
      {| notes := notes s; newNote := newNote s; newTitle := newTitle s;
         lastEdited := lastEdited s; tag := tag s; searchQuery := searchQuery s;
         filteredNotes := filteredNotes s; isModalOpen := b;
         isAnimating := isAnimating s; editIndex := editIndex s; loading := loading s;
         errorModal := errorModal s; user := user s |}
  | setIsAnimating b =>
      {| notes := notes s; newNote := newNote s; newTitle := newTitle s;
         lastEdited := lastEdited s; tag := tag s; searchQuery := searchQuery s;
         filteredNotes := filteredNotes s; isModalOpen := isModalOpen s;
         isAnimating := b; editIndex := editIndex s; loading := loading s;
         errorModal := errorModal s; user := user s |}
  | setEditIndex i =>
      {| notes := notes s; newNote := newNote s; newTitle := newTitle s;
         lastEdited := lastEdited s; tag := tag s; searchQuery := searchQuery s;
         filteredNotes := filteredNotes s; isModalOpen := isModalOpen s;
         isAnimating := isAnimating s; editIndex := i; loading := loading s;
         errorModal := errorModal s; user := user s |}
  | setLoading b =>
      {| notes := notes s; newNote := newNote s; newTitle := newTitle s;
         lastEdited := lastEdited s; tag := tag s; searchQuery := searchQuery s;
         filteredNotes := filteredNotes s; isModalOpen := isModalOpen s;
         isAnimating := isAnimating s; editIndex := editIndex s; loading := b;
         errorModal := errorModal s; user := user s |}
  | setErrorModal e =>
      {| notes := notes s; newNote := newNote s; newTitle := newTitle s;
         lastEdited := lastEdited s; tag := tag s; searchQuery := searchQuery s;
         filteredNotes := filteredNotes s; isModalOpen := isModalOpen s;
         isAnimating := isAnimating s; editIndex := editIndex s; loading := loading s;
         errorModal := e; user := user s |}
  end.

(** What is observable from outside the component: the current state, the
    requests sent to the store, the pending timers, the console and the
    query of the live subscription. *)
Record world := {
  view : state;
  sent : list request;
  timers : list (Z * setter);
  console : list (string * FirestoreError);
  subscription : option query
}.

Definition withView (f : state -> state) (w : world) : world :=
  {| view := f (view w); sent := sent w; timers := timers w;
     console := console w; subscription := subscription w |}.

(** Runs the effects of a handler.  [accepts r] tells whether the promise of
    request [r] is fulfilled; when it is rejected, the rest of the [async]
    function after the [await] is not run. *)
Fixpoint exec (accepts : request -> bool) (acts : list action) (w : world) : world :=
  match acts with
  | [] => w
  | Call u :: k => exec accepts k (withView (applySetter u) w)
  | Await r :: k =>
      let w' := {| view := view w; sent := sent w ++ [r]; timers := timers w;
                   console := console w; subscription := subscription w |} in
      if accepts r then exec accepts k w' else w'
  | SetTimeout cb delay :: k =>
      exec accepts k {| view := view w; sent := sent w;
                        timers := timers w ++ [(delay, cb)];
                        console := console w; subscription := subscription w |}
  | ConsoleError m e :: k =>
      exec accepts k {| view := view w; sent := sent w; timers := timers w;
                        console := console w ++ [(m, e)];
                        subscription := subscription w |}
  end.

(** The requests among the effects of a handler. *)
Definition requestsOf (acts : list action) : list request :=
  omap (fun a => match a with Await r => Some r | _ => None end) acts.

(** The functions the page hands to its elements and to the two modals. *)
Inductive handler :=
| h_openModal (index : option Z)
| h_closeModal
| h_closeErrorModal
| h_addOrEditNote
| h_deleteNote
| h_handleSearch
| h_setSearchQuery (q : jsstring)
| h_setNewNote (v : value)
| h_setNewTitle (v : value)
| h_setLastEdited (v : value)
| h_setTag (v : value).

(** Calling a handler of the render of state [s] when the clock reads
    [now]. *)
Definition call `{U : Unicode} (h : handler) (s : state) (now : Z) : result (list action) :=
  match h with
  | h_openModal index => openModal s index now
  | h_closeModal => Ok closeModal
  | h_closeErrorModal => Ok closeErrorModal
  | h_addOrEditNote => addOrEditNote s now
  | h_deleteNote => deleteNote s
  | h_handleSearch => handleSearch s
  | h_setSearchQuery q => Ok [ Call (setSearchQuery q) ]
  | h_setNewNote v => Ok [ Call (setNewNote v) ]
  | h_setNewTitle v => Ok [ Call (setNewTitle v) ]
  | h_setLastEdited v => Ok [ Call (setLastEdited v) ]
  | h_setTag v => Ok [ Call (setTag v) ]
  end.

(** What can happen to a mounted page. *)
Inductive event :=
| Handle (h : handler) (now : Z)
| Snapshot (docs : list document)
| SnapshotError (e : FirestoreError)
| TimerFires (k : nat)
| AuthState (u : option User).

Definition mount (u : option User) : world :=
  {| view := initialState u; sent := []; timers := []; console := [];
     subscription := notesEffect u |}.

(** One event.  A handler that throws leaves the world as it was; snapshots
    and errors are delivered only to a live subscription; a change of the
    user runs the cleanup of the effect (unsubscribe) and the effect again. *)
Definition dispatch `{U : Unicode} (accepts : request -> bool) (ev : event) (w : world) :
  world :=
  match ev with
  | Handle h now =>
      match call h (view w) now with
      | Ok acts => exec accepts acts w
      | Throw _ => w
      end
  | Snapshot docs =>
      match subscription w with
      | Some _ => exec accepts (onNext docs) w
      | None => w
      end
  | SnapshotError e =>
      match subscription w with
      | Some _ => exec accepts (onError e) w
      | None => w
      end
  | TimerFires k =>
      match timers w !! k with
      | Some (_, cb) =>
          {| view := applySetter cb (view w); sent := sent w;
             timers := delete k (timers w); console := console w;
             subscription := subscription w |}
      | None => w
      end
  | AuthState u =>
      {| view := {| notes := notes (view w); newNote := newNote (view w);
                    newTitle := newTitle (view w); lastEdited := lastEdited (view w);
                    tag := tag (view w); searchQuery := searchQuery (view w);
                    filteredNotes := filteredNotes (view w);
                    isModalOpen := isModalOpen (view w);
                    isAnimating := isAnimating (view w);
                    editIndex := editIndex (view w); loading := loading (view w);
                    errorModal := errorModal (view w); user := u |};
         sent := sent w; timers := timers w; console := console w;
         subscription := notesEffect u |}
  end.

Definition run `{U : Unicode} (accepts : request -> bool) (evs : list event) (w : world) :
  world :=
  foldl (fun w ev => dispatch accepts ev w) w evs.

(** The worlds a page mounted for user [u] can be in. *)
Definition reachable `{U : Unicode} (u : option User) (w : world) : Prop :=
  exists accepts evs, w = run accepts evs (mount u).

(** ** What the page renders

    Elements carry the attributes that depend on the state or that wire a
    handler; constant styling ([className] literals, [style]) is left out.
    The bodies of the imported components are not part of the page. *)
Inductive attr :=
| className (c : string)
| key (v : value)
| onClick (h : handler)
| placeholder (p : string)
| dangerouslySetInnerHTML (html : jsstring).

#[warnings="-register-all"]
Inductive node :=
| Text (t : jsstring)
| Expr (v : value)
| Element (name : string) (attrs : list attr) (children : list node)
| BsSearch (attrs : list attr)
| PlusIcon
| NotesCreateEditModal (isOpen isAnimating : bool) (editIndex : option Z)
    (newNote newTitle lastEdited tag : value)
| ErrorModal (isOpen : value) (message : value) (isError : bool).

(** The markup set through [dangerouslySetInnerHTML] anywhere in a tree, in
    document order. *)
Definition innerHTMLOf (a : attr) : option jsstring :=
  match a with
  | dangerouslySetInnerHTML html => Some html
  | _ => None
  end.

Fixpoint innerHTMLs (n : node) : list jsstring :=
  match n with
  | Element _ attrs children => omap innerHTMLOf attrs ++ concat (map innerHTMLs children)
  | BsSearch attrs => omap innerHTMLOf attrs
  | _ => []
  end.

(** The values put into the tree as escaped text children. *)
Fixpoint exprs (n : node) : list value :=
  match n with
  | Expr v => [v]
  | Element _ _ children => concat (map exprs children)
  | _ => []
  end.

Section Render.

(** [DOMPurify.sanitize] and [new Date(v).toLocaleString("en-US", ...)]
    with the options of the page. *)
Variable sanitize : value -> jsstring.
Variable toLocaleString : value -> jsstring.

(** The callback of [filteredNotes.map]. *)
Definition renderFilteredNote (s : state) (note : obj) : node :=
  let originalIndex :=
    Js.findIndex (fun n => Js.strictEq (Js.get n "id") (Js.get note "id")) (notes s) in
  let newDate := toLocaleString (Js.get note "edit") in
  Element "li"
    [ key (Js.get note "id");
      onClick (h_openModal (Some originalIndex));
      className (getBorderColor (Js.get note "tag")) ]
    [ Element "div" []
        [ Element "div" []
            [ Element "span" [] [ Expr (Js.get note "title") ];
              Element "span"
                [ dangerouslySetInnerHTML (sanitize (Js.get note "text")) ] [];
              Element "p" []
                [ Text newDate; Text " | "; Text " ";
                  Element "span" [ className (getFontColor (Js.get note "tag")) ]
                    [ Expr (Js.get note "tag") ] ] ] ] ].

(** The callback of [notes.map]. *)
Definition renderNote (index : nat) (note : obj) : node :=
  let lastEdited := toLocaleString (Js.get note "edit") in
  Element "li"
    [ key (VNumber (Z.of_nat index));
      onClick (h_openModal (Some (Z.of_nat index)));
      className (getBorderColor (Js.get note "tag")) ]
    [ Element "div" []
        [ Element "div" []
            [ Element "span" [] [ Expr (Js.get note "title") ];
              Element "span"
                [ dangerouslySetInnerHTML (sanitize (Js.get note "text")) ] [];
              Element "p" []
                [ Text lastEdited; Text " | "; Text " ";
                  Element "span" [ className (getFontColor (Js.get note "tag")) ]
                    [ Expr (Js.get note "tag") ] ] ] ] ].

(** The search bar with the filtered list under it. *)
Definition renderSearch (s : state) : node :=
  Element "div" []
    [ Element "div" []
        [ Element "input" [ placeholder "Search notes" ] [];
          BsSearch [ onClick h_handleSearch ] ];
      Element "div" [] (map (renderFilteredNote s) (filteredNotes s)) ].

(** The list of all notes. *)
Definition renderList (s : state) : node :=
  Element "div" []
    [ if bool_decide (0 < length (notes s))%nat
      then Element "ul" [] (imap renderNote (notes s))
      else Element "p" [] [ Text "No notes yet!!" ] ].

Definition render (s : state) : node :=
  if loading s then Element "div" [] [ Element "div" [] [] ]
  else
    Element "div" []
      [ Element "h1" [] [];
        renderSearch s;
        renderList s;
        Element "button" [ onClick (h_openModal None) ]
          [ Element "span" [] [ PlusIcon ];
            Element "span" [] [ Text "+ Create" ] ];
        NotesCreateEditModal (isModalOpen s) (isAnimating s) (editIndex s)
          (newNote s) (newTitle s) (lastEdited s) (tag s);
        ErrorModal
          (match errorModal s with
           | ErrorModalObj isOpen _ => VBool isOpen
           | ErrorModalFalse => VUndefined
           end)
          (match errorModal s with
           | ErrorModalObj _ message => VString message
           | ErrorModalFalse => VUndefined
           end)
          true ].

End Render.

(** ** The words of the specification

    The notions the specification uses for strings, stated without the
    functions of the code, to compare the two. *)
Module Spec.

(** "empty or whitespace-only" *)
Definition whitespaceOnly (s : jsstring) : Prop :=
  Forall (fun c => JsString.isWhiteSpace c = true) s.

(** [u] is an upper-case letter and [l] the same letter in lower case. *)
Definition casePair `{U : Unicode} (u l : N) : Prop :=
  u <> l /\ lowercase u = [ l ].

Definition sameLetter `{U : Unicode} (a b : N) : Prop :=
  a = b \/ casePair a b \/ casePair b a.

(** The same letters, one by one, up to case. *)
Definition equalIgnoringCase `{U : Unicode} (s t : jsstring) : Prop :=
  Forall2 sameLetter s t.

(** "[s] contains [q] as a case-insensitive substring" *)
Definition containsIgnoringCase `{U : Unicode} (s q : jsstring) : Prop :=
  exists pre mid post, s = pre ++ mid ++ post /\ equalIgnoringCase mid q.

(** A note whose title is a string that contains [q] that way. *)
Definition titleContains `{U : Unicode} (q : jsstring) (note : obj) : Prop :=
  exists t, Js.get note "title" = VString t /\ containsIgnoringCase t q.

End Spec.

(** ** Notions used in the proofs *)

(** Every code unit below U+0100, to decide a property of such code units
    by running through them. *)
Definition allCodeUnits : list N := map N.of_nat (seq 0 256).

(** [Spec.casePair] below U+0100, as a test. *)
Definition casePairb (u l : N) : bool :=
  negb (u =? l)%N && (JsString.lowerLatin1 u =? l)%N.

(** The title of the note is a string. *)
Definition hasStringTitle (note : obj) : Prop :=
  exists t, Js.get note "title" = VString t.

(** The title of the note is a string of code units below U+0100. *)
Definition hasLatin1Title (note : obj) : Prop :=
  exists t, Js.get note "title" = VString t /\ JsString.isLatin1 t.

(** The test of [handleSearch] on a note whose title is a string. *)
Definition titleContainsb `{U : Unicode} (q : jsstring) (note : obj) : bool :=
  match Js.get note "title" with
  | VString t => JsString.includes (JsString.toLowerCase t) (JsString.toLowerCase q)
  | _ => false
  end.

(** ** Case data for the samples

    The data of Unicode for the blocks Basic Latin, Latin-1 Supplement and
    Greek and Coptic (U+0370..U+03FF); the code points of other blocks are
    left as they are and taken as neither cased nor case-ignorable. *)
Module SampleUnicode.

Local Open Scope N_scope.

Definition inRange (lo hi c : N) : bool := ((lo <=? c) && (c <=? hi))%N.

(** The lower-case mapping in U+0370..U+03FF. *)
Definition lowerGreek (c : N) : N :=
  if (c =? 880) || (c =? 882) || (c =? 886) then c + 1
  else if c =? 895 then 1011
  else if c =? 902 then 940
  else if inRange 904 906 c then c + 37
  else if c =? 908 then 972
  else if inRange 910 911 c then c + 63
  else if inRange 913 929 c || inRange 931 939 c then c + 32
  else if c =? 975 then 983
  else if inRange 984 1006 c && N.even c then c + 1
  else if c =? 1012 then 952
  else if (c =? 1015) || (c =? 1018) then c + 1
  else if c =? 1017 then 1010
  else if inRange 1021 1023 c then c - 130
  else c.

Definition lower (c : N) : list N :=
  if c <? 256 then [ JsString.lowerLatin1 c ]
  else if inRange 880 1023 c then [ lowerGreek c ]
  else [ c ].

Definition isCased (c : N) : bool :=
  inRange 65 90 c || inRange 97 122 c || (c =? 170) || (c =? 181) || (c =? 186)
  || inRange 192 214 c || inRange 216 246 c || inRange 248 255 c
  || inRange 880 883 c || inRange 886 887 c || inRange 890 893 c || (c =? 895)
  || (c =? 902) || inRange 904 906 c || (c =? 908) || inRange 910 929 c
  || inRange 931 1013 c || inRange 1015 1023 c.

Definition isCaseIgnorable (c : N) : bool :=
  (c =? 39) || (c =? 46) || (c =? 58) || (c =? 94) || (c =? 96) || (c =? 168)
  || (c =? 173) || (c =? 175) || (c =? 180) || (c =? 183) || (c =? 184)
  || inRange 884 885 c || (c =? 890) || inRange 900 901 c || (c =? 903).

End SampleUnicode.

#[global] Instance latinGreek : Unicode :=
  {| lowercase := SampleUnicode.lower;
     cased := SampleUnicode.isCased;
     caseIgnorable := SampleUnicode.isCaseIgnorable |}.

(** ** Sample data *)
Module Sample.

Definition alice : User := {| uid := "alice" |}.

Definition groceriesData : obj :=
  list_to_map [ ("title", VString "Groceries"); ("text", VString "<p>milk</p>");
                ("edit", VNumber 100); ("tag", VString "Personal") ].

Definition groceries : document := {| doc_id := "1"; doc_data := groceriesData |}.

Definition accepting : request -> bool := fun _ => true.

(** The page of alice after the first snapshot. *)
Definition loaded : world := run accepting [ Snapshot [ groceries ] ] (mount (Some alice)).

(** Then "+ Create" is pressed and a title typed, the body left as it is. *)
Definition emptyBodyDraft : world :=
  run accepting
    [ Handle (h_openModal None) 5000; Handle (h_setNewTitle (VString "Trip")) 5001;
      Handle (h_setTag (VString "Work")) 5002 ] loaded.

(** The same with a body. *)
Definition tripDraft : world :=
  run accepting [ Handle (h_setNewNote (VString "<p>pack</p>")) 5003 ] emptyBodyDraft.

(** A note last edited on a device whose clock runs a minute ahead. *)
Definition minutes : document :=
  {| doc_id := "2";
     doc_data :=
       list_to_map [ ("title", VString "Minutes"); ("text", VString "<p>agenda</p>");
                     ("edit", VNumber 1700000060000); ("tag", VString "Work") ] |}.

Definition loadedMinutes : world :=
  run accepting [ Snapshot [ minutes ] ] (mount (Some alice)).

(** The groceries note opened for editing. *)
Definition editing : world :=
  run accepting [ Handle (h_openModal (Some 0)) 6000 ] loaded.

End Sample.

(** ** Further notions for the page *)

(** The object literal [noteData], as the object it is. *)
Definition noteDataObj (d : NoteData.t) : obj :=
  list_to_map [ ("title", NoteData.title d); ("text", NoteData.text d);
                ("edit", NoteData.edit d); ("tag", NoteData.tag d) ].

(** The reference a request is sent for. *)
Definition refOf (r : request) : path :=
  match r with
  | AddDoc ref _ => ref
  | UpdateDoc ref _ => ref
  | DeleteDoc ref => ref
  end.

(** The handlers wired through [onClick] anywhere in a tree, in document
    order. *)
Definition onClickOf (a : attr) : option handler :=
  match a with
  | onClick h => Some h
  | _ => None
  end.

Fixpoint onClicks (n : node) : list handler :=
  match n with
  | Element _ attrs children => omap onClickOf attrs ++ concat (map onClicks children)
  | BsSearch attrs => omap onClickOf attrs
  | _ => []
  end.

(** The setters that only drive the modal. *)
Definition modalOnly (u : setter) : Prop :=
  match u with
  | setIsAnimating _ | setIsModalOpen _ => True
  | _ => False
  end.

(** The effects that set neither [notes] nor [loading], at once or from a
    timer. *)
Definition keepsNotes (a : action) : Prop :=
  match a with
  | Call (setNotes _) | Call (setLoading _) => False
  | SetTimeout callback _ => modalOnly callback
  | _ => True
  end.

(** The events other than a user signing in. *)
Definition noSignIn (ev : event) : Prop :=
  match ev with
  | AuthState (Some _) => False
  | _ => True
  end.

(** The setters other than [setFilteredNotes]. *)
Definition keepsFiltered (u : setter) : Prop :=
  match u with
  | setFilteredNotes _ => False
  | _ => True
  end.

(** The effects that do not set [filteredNotes], at once or from a timer. *)
Definition keepsFilteredNotes (a : action) : Prop :=
  match a with
  | Call u => keepsFiltered u
  | SetTimeout callback _ => keepsFiltered callback
  | _ => True
  end.

(** The events other than a click on the search icon. *)
Definition noSearchClick (ev : event) : Prop :=
  match ev with
  | Handle h_handleSearch _ => False
  | _ => True
  end.

(** ** The mobile container (src/unnamed/part_000)

    The component that holds the navigation menu and mounts one of the four
    pages.  Its setters are called with a value or, in
    [toggleProfileModal], with a function of the previous value. *)
Module MobileContainer.

Record state := { nav : Z; isOpen : bool; isProfileModalOpen : bool }.

Definition initialState : state :=
  {| nav := 1; isOpen := false; isProfileModalOpen := false |}.

Inductive update :=
| setNav (n : Z)
| setIsOpen (b : bool)
| setIsProfileModalOpen (f : bool -> bool).

Definition applyUpdate (u : update) (s : state) : state :=
  match u with
  | setNav n =>
      {| nav := n; isOpen := isOpen s; isProfileModalOpen := isProfileModalOpen s |}
  | setIsOpen b =>
      {| nav := nav s; isOpen := b; isProfileModalOpen := isProfileModalOpen s |}
  | setIsProfileModalOpen f =>
      {| nav := nav s; isOpen := isOpen s;
         isProfileModalOpen := f (isProfileModalOpen s) |}
  end.

Definition toggleProfileModal : list update := [ setIsProfileModalOpen negb ].

Definition handleNav (navNumber : Z) : list update :=
  [ setNav navNumber; setIsOpen false ].

(** The [onClick] of the header button: [() => setIsOpen(!isOpen)], with
    the [isOpen] of the render. *)
Definition menuButton (s : state) : list update := [ setIsOpen (negb (isOpen s)) ].

(** The four [NavItem]s of the menu: label and [navNumber]. *)
Definition navItems : list (string * Z) :=
  [ ("Dashboard", 1); ("Tasks", 2); ("Note", 3); ("Budget", 4) ].

Inductive page := Overview | Todo | Note | Budget.

(** The main content: the four [nav === k && <Page />] in a row. *)
Definition mainContent (s : state) : list page :=
  (if nav s =? 1 then [ Overview ] else [])
  ++ (if nav s =? 2 then [ Todo ] else [])
  ++ (if nav s =? 3 then [ Note ] else [])
  ++ (if nav s =? 4 then [ Budget ] else []).

(** The clicks the component handles itself: the header button, the [k]-th
    item of the menu, the profile picture and the Close button of the
    profile modal. *)
Inductive click :=
| ClickMenuButton
| ClickNavItem (k : nat)
| ClickProfile
| ClickClose.

Definition handle (c : click) (s : state) : list update :=
  match c with
  | ClickMenuButton => menuButton s
  | ClickNavItem k =>
      match navItems !! k with
      | Some (_, navNumber) => handleNav navNumber
      | None => []
      end
  | ClickProfile => toggleProfileModal
  | ClickClose => toggleProfileModal
  end.

(** One click: the handler of the current render runs and its updates are
    applied in order. *)
Definition step (s : state) (c : click) : state :=
  foldl (fun s u => applyUpdate u s) s (handle c s).

Definition run (cs : list click) : state := foldl step initialState cs.

(** The clicks that toggle the profile modal. *)
Definition isToggle (c : click) : bool :=
  match c with
  | ClickProfile | ClickClose => true
  | _ => false
  end.

End MobileContainer.

(** ** Further sample data *)
Module Scenario.

(** A store that rejects every write. *)
Definition rejecting : request -> bool := fun _ => false.

(** Two notes, the newer first, as the query orders them. *)
Definition twoNotes : world :=
  run Sample.accepting [ Snapshot [ Sample.minutes; Sample.groceries ] ]
    (mount (Some Sample.alice)).

(** The groceries note, at index 1, is opened; then a snapshot without it
    arrives. *)
Definition shrunk : world :=
  run Sample.accepting
    [ Handle (h_openModal (Some 1)) 6000; Snapshot [ Sample.minutes ] ] twoNotes.

(** The groceries note with "Groc" searched for. *)
Definition searched : world :=
  run Sample.accepting
    [ Handle (h_setSearchQuery "Groc") 6000; Handle h_handleSearch 6001 ] Sample.loaded.

(** The same after a snapshot without the groceries note. *)
Definition searchedStale : world :=
  run Sample.accepting [ Snapshot [ Sample.minutes ] ] searched.

(** A note titled U+039F U+0394 U+039F U+03A3, "street" in Greek
    capitals. *)
Definition street : document :=
  {| doc_id := "3";
     doc_data :=
       list_to_map [ ("title", VString [ 927; 916; 927; 931 ]%N);
                     ("text", VString "<p>map</p>");
                     ("edit", VNumber 300); ("tag", VString "Personal") ] |}.

(** The page showing that note, with the same word typed into the search
    box in lower case: U+03BF U+03B4 U+03BF U+03C3. *)
Definition streetQuery : world :=
  run Sample.accepting
    [ Snapshot [ street ]; Handle (h_setSearchQuery [ 959; 948; 959; 963 ]%N) 6000 ]
    (mount (Some Sample.alice)).

(** A document whose data has a field named [id] of its own. *)
Definition shadowed : document :=
  {| doc_id := "7"; doc_data := <[ "id" := VString "own" ]> Sample.groceriesData |}.

(** The page showing that document, opened for editing. *)
Definition shadowedEditing : world :=
  run Sample.accepting [ Snapshot [ shadowed ]; Handle (h_openModal (Some 0)) 6000 ]
    (mount (Some Sample.alice)).

(** The groceries note, alone in the list, is opened; then a snapshot
    arrives in which a newer note comes first. *)
Definition reordered : world :=
  run Sample.accepting
    [ Handle (h_openModal (Some 0)) 6000;
      Snapshot [ Sample.minutes; Sample.groceries ] ] Sample.loaded.

End Scenario.

(** * Properties *)

(** ** Strings *)

Lemma allCodeUnits_complete (c : N) : (c < 256)%N -> In c allCodeUnits.
Proof.
  intros Hc. unfold allCodeUnits. rewrite <- (N2Nat.id c).
  apply in_map, in_seq. lia.
Qed.

Lemma forall_code_units (P : N -> bool) :
  forallb P allCodeUnits = true -> forall c, (c < 256)%N -> P c = true.
Proof.
  intros H c Hc. rewrite forallb_forall in H. now apply H, allCodeUnits_complete.
Qed.

Lemma forall_code_units2 (P : N -> N -> bool) :
  forallb (fun a => forallb (P a) allCodeUnits) allCodeUnits = true ->
  forall a b, (a < 256)%N -> (b < 256)%N -> P a b = true.
Proof.
  intros H a b Ha Hb.
  apply (forall_code_units (P a)); [|exact Hb].
  now apply (forall_code_units _ H).
Qed.

Lemma lowerLatin1_bound (c : N) : (c < 256)%N -> (JsString.lowerLatin1 c < 256)%N.
Proof.
  intros Hc. unfold JsString.lowerLatin1, JsString.isUpperLatin1.
  destruct (_ || _) eqn:E; [|exact Hc].
  apply orb_true_iff in E. rewrite !andb_true_iff, !N.leb_le in E. lia.
Qed.

Lemma casePairb_spec `{U : Unicode} (u l : N) :
  JsString.lowercaseLatin1 -> (u < 256)%N ->
  casePairb u l = true <-> Spec.casePair u l.
Proof.
  intros HL Hu. unfold casePairb, Spec.casePair.
  rewrite (HL u Hu), andb_true_iff, negb_true_iff, N.eqb_neq, N.eqb_eq.
  split; intros [H1 H2]; split; congruence.
Qed.

Lemma lowerLatin1_table :
  forall a b, (a < 256)%N -> (b < 256)%N ->
    Bool.eqb (JsString.lowerLatin1 a =? JsString.lowerLatin1 b)%N
             ((a =? b)%N || casePairb a b || casePairb b a) = true.
Proof. apply forall_code_units2. vm_compute. reflexivity. Qed.

(** Below U+0100 two code units have the same lower case exactly when they
    are the same letter up to case. *)
Lemma lowerLatin1_sameLetter `{U : Unicode} (a b : N) :
  JsString.lowercaseLatin1 -> (a < 256)%N -> (b < 256)%N ->
  JsString.lowerLatin1 a = JsString.lowerLatin1 b <-> Spec.sameLetter a b.
Proof.
  intros HL Ha Hb.
  pose proof (lowerLatin1_table a b Ha Hb) as Ht. apply Bool.eqb_prop in Ht.
  unfold Spec.sameLetter.
  rewrite <- !casePairb_spec by assumption.
  rewrite <- (N.eqb_eq a b), <- N.eqb_eq, Ht, !orb_true_iff. tauto.
Qed.

Lemma toCodePoints_latin1 (s : jsstring) :
  JsString.isLatin1 s -> JsString.toCodePoints s = s.
Proof.
  induction 1 as [|c s Hc Hs IH]; [reflexivity|].
  cbn [JsString.toCodePoints]. destruct s as [|d s]; [reflexivity|].
  assert (JsString.isLeadingSurrogate c = false) as ->.
  { unfold JsString.isLeadingSurrogate. apply andb_false_iff. left.
    apply N.leb_gt. lia. }
  cbn [andb]. now rewrite IH.
Qed.

Lemma ofCodePoints_latin1 (s : jsstring) :
  JsString.isLatin1 s -> JsString.ofCodePoints s = s.
Proof.
  induction 1 as [|c s Hc Hs IH]; [reflexivity|].
  unfold JsString.ofCodePoints in *. cbn [flat_map]. rewrite IH.
  unfold JsString.encodeCodePoint.
  assert ((c <=? 65535)%N = true) as -> by (apply N.leb_le; lia). reflexivity.
Qed.

Lemma isLatin1_map_lower (s : jsstring) :
  JsString.isLatin1 s -> JsString.isLatin1 (map JsString.lowerLatin1 s).
Proof.
  induction 1 as [|c s Hc Hs IH]; simpl; constructor; auto using lowerLatin1_bound.
Qed.

Lemma lowerCodePoints_latin1 `{U : Unicode} (before s : list N) :
  JsString.lowercaseLatin1 -> JsString.isLatin1 s ->
  JsString.lowerCodePoints before s = map JsString.lowerLatin1 s.
Proof.
  intros HL Hs. revert before. induction Hs as [|c s Hc Hs IH]; intros before;
    [reflexivity|].
  cbn [JsString.lowerCodePoints map]. rewrite IH, (HL c Hc).
  assert ((c =? 931)%N = false) as -> by (apply N.eqb_neq; lia). reflexivity.
Qed.

(** On the strings below U+0100 [toLowerCase] works code unit by code
    unit. *)
Lemma toLowerCase_latin1 `{U : Unicode} (s : jsstring) :
  JsString.lowercaseLatin1 -> JsString.isLatin1 s ->
  JsString.toLowerCase s = map JsString.lowerLatin1 s.
Proof.
  intros HL Hs. unfold JsString.toLowerCase.
  rewrite toCodePoints_latin1, lowerCodePoints_latin1 by assumption.
  now apply ofCodePoints_latin1, isLatin1_map_lower.
Qed.

Lemma map_lower_equalIgnoringCase `{U : Unicode} (s t : jsstring) :
  JsString.lowercaseLatin1 -> JsString.isLatin1 s -> JsString.isLatin1 t ->
  map JsString.lowerLatin1 s = map JsString.lowerLatin1 t
  <-> Spec.equalIgnoringCase s t.
Proof.
  intros HL Hs. revert t. unfold Spec.equalIgnoringCase.
  induction Hs as [|a s Ha Hs IH]; intros t Ht.
  - destruct t; simpl; split; try discriminate; [constructor | reflexivity |].
    inversion 1.
  - destruct t as [|b t]; simpl; [split; [discriminate | inversion 1]|].
    inversion Ht as [|? ? Hb Ht']; subst. split.
    + intros E. injection E as Eh Et. constructor.
      * now apply lowerLatin1_sameLetter.
      * now apply IH.
    + inversion 1 as [|? ? ? ? Hab Hst]; subst. f_equal.
      * now apply lowerLatin1_sameLetter.
      * now apply IH.
Qed.

Lemma map_app_split {A B} (f : A -> B) (l : list A) (k1 k2 : list B) :
  map f l = k1 ++ k2 ->
  exists l1 l2, l = l1 ++ l2 /\ map f l1 = k1 /\ map f l2 = k2.
Proof.
  revert l. induction k1 as [|x k1 IH]; intros l E.
  - exists [], l. auto.
  - destruct l as [|a l]; simpl in E; [discriminate|].
    injection E as Ex El. destruct (IH _ El) as (l1 & l2 & -> & H1 & H2).
    exists (a :: l1), l2. simpl. now rewrite Ex, H1.
Qed.

Lemma startsWith_spec (s sub : jsstring) :
  JsString.startsWith s sub = true <-> exists post, s = sub ++ post.
Proof.
  revert s. induction sub as [|b sub IH]; intros s; simpl.
  - split; [intros _; now exists s | reflexivity].
  - destruct s as [|a s].
    + split; [discriminate | intros [post E]; discriminate].
    + rewrite andb_true_iff, N.eqb_eq, IH. split.
      * intros [-> [post ->]]. now exists post.
      * intros [post E]. injection E as -> ->. split; [reflexivity | now exists post].
Qed.

Lemma includes_spec (s sub : jsstring) :
  JsString.includes s sub = true <-> exists pre post, s = pre ++ sub ++ post.
Proof.
  induction s as [|a s IH]; simpl; rewrite orb_true_iff.
  - rewrite startsWith_spec. split.
    + intros [[post E]|E]; [|discriminate]. now exists [], post.
    + intros ([|c pre] & post & E); [|discriminate]. left. now exists post.
  - rewrite startsWith_spec, IH. split.
    + intros [[post E]|(pre & post & ->)].
      * now exists [], post.
      * now exists (a :: pre), post.
    + intros ([|c pre] & post & E).
      * left. now exists post.
      * right. injection E as _ ->. now exists pre, post.
Qed.

Lemma isLatin1_app (s t : jsstring) :
  JsString.isLatin1 (s ++ t) <-> JsString.isLatin1 s /\ JsString.isLatin1 t.
Proof. apply Forall_app. Qed.

(** Below U+0100 the test of [handleSearch] on two strings is containment
    up to case. *)
Lemma includes_toLowerCase_latin1 `{U : Unicode} (t q : jsstring) :
  JsString.lowercaseLatin1 -> JsString.isLatin1 t -> JsString.isLatin1 q ->
  JsString.includes (JsString.toLowerCase t) (JsString.toLowerCase q) = true
  <-> Spec.containsIgnoringCase t q.
Proof.
  intros HL Ht Hq. rewrite !toLowerCase_latin1 by assumption.
  rewrite includes_spec. unfold Spec.containsIgnoringCase. split.
  - intros (pre & post & E).
    destruct (map_app_split _ _ _ _ E) as (s1 & s23 & -> & _ & E23).
    destruct (map_app_split _ _ _ _ E23) as (s2 & s3 & -> & E2 & _).
    exists s1, s2, s3. split; [reflexivity|].
    apply isLatin1_app in Ht as [_ Ht]. apply isLatin1_app in Ht as [Ht _].
    now apply map_lower_equalIgnoringCase.
  - intros (pre & mid & post & -> & E).
    apply isLatin1_app in Ht as [_ Ht]. apply isLatin1_app in Ht as [Ht _].
    apply map_lower_equalIgnoringCase in E; try assumption.
    exists (map JsString.lowerLatin1 pre), (map JsString.lowerLatin1 post).
    now rewrite !map_app, E.
Qed.

Lemma trimStart_empty (s : jsstring) :
  JsString.trimStart s = [] <-> Spec.whitespaceOnly s.
Proof.
  unfold Spec.whitespaceOnly. induction s as [|c s IH]; simpl.
  - split; [constructor | reflexivity].
  - destruct (JsString.isWhiteSpace c) eqn:E.
    + rewrite IH. split; [now constructor | now inversion 1].
    + split; [discriminate | inversion 1; congruence].
Qed.

(** [trim] leaves nothing exactly of the strings that are empty or consist
    of white space. *)
Lemma trim_empty (s : jsstring) :
  JsString.trim s = [] <-> Spec.whitespaceOnly s.
Proof.
  rewrite <- trimStart_empty. unfold JsString.trim. split.
  - intros H. induction s as [|c s IH]; simpl in *; [reflexivity|].
    destruct (JsString.isWhiteSpace c) eqn:E; [now apply IH|].
    simpl in H. destruct (JsString.trimEnd s); [now rewrite E in H | discriminate].
  - intros ->. reflexivity.
Qed.

Lemma isEmpty_true (s : jsstring) : JsString.isEmpty s = true <-> s = [].
Proof. destruct s; simpl; split; congruence. Qed.

Lemma isEmpty_false (s : jsstring) : JsString.isEmpty s = false <-> s <> [].
Proof. destruct s; simpl; split; congruence. Qed.

(** The case data of the samples agree with Unicode below U+0100. *)
Lemma latinGreek_lowercaseLatin1 : @JsString.lowercaseLatin1 latinGreek.
Proof.
  intros c Hc. simpl. unfold SampleUnicode.lower.
  assert ((c <? 256)%N = true) as -> by now apply N.ltb_lt. reflexivity.
Qed.
(** ** Effects of the handlers *)

(** Closes [~ Spec.whitespaceOnly s] for a given string [s] by running
    [trim]. *)
Ltac not_blank := rewrite <- trim_empty; vm_compute; discriminate.

Lemma bool_decide_is_Some {A} (o : option A) :
  bool_decide (is_Some o) = match o with Some _ => true | None => false end.
Proof.
  destruct o; [apply bool_decide_eq_true | apply bool_decide_eq_false].
  - eauto.
  - apply is_Some_None.
Qed.

(** The gate of [addOrEditNote] on a draft with a blank title. *)
Lemma allFieldsFilled_blank_title (s : state) (t : jsstring) :
  newTitle s = VString t -> Spec.whitespaceOnly t -> allFieldsFilled s = Ok false.
Proof.
  intros Ht Hw. unfold allFieldsFilled. rewrite Ht. simpl.
  apply trim_empty in Hw. now rewrite Hw.
Qed.

(** The gate on a draft with a blank body. *)
Lemma allFieldsFilled_blank_body (s : state) (t b : jsstring) :
  newTitle s = VString t -> newNote s = VString b -> Spec.whitespaceOnly b ->
  allFieldsFilled s = Ok false.
Proof.
  intros Ht Hb Hw. unfold allFieldsFilled. rewrite Ht, Hb. simpl.
  apply trim_empty in Hw. rewrite Hw. simpl. now destruct (JsString.isEmpty _).
Qed.

(** The gate on a draft that passes it. *)
Lemma allFieldsFilled_valid (s : state) (t b : jsstring) :
  newTitle s = VString t -> ~ Spec.whitespaceOnly t ->
  newNote s = VString b -> ~ Spec.whitespaceOnly b ->
  Js.toBoolean (lastEdited s) = true ->
  allFieldsFilled s = Ok (bool_decide (is_Some (user s))).
Proof.
  intros Ht Hwt Hb Hwb Hl. unfold allFieldsFilled. rewrite Ht, Hb, Hl. simpl.
  rewrite <- trim_empty in Hwt, Hwb.
  destruct (JsString.isEmpty (JsString.trim t)) eqn:E1.
  { apply isEmpty_true in E1. contradiction. }
  destruct (JsString.isEmpty (JsString.trim b)) eqn:E2.
  { apply isEmpty_true in E2. contradiction. }
  reflexivity.
Qed.

(** C1: a draft whose title is blank (empty or white space only), or whose
    title is a string and whose body is blank, is rejected by
    [addOrEditNote] whatever the mode ([editIndex] is arbitrary): the only
    effect is to open the error modal with its message, so no [addDoc] or
    [updateDoc] request is sent. *)
Theorem addOrEditNote_rejects_blank `{U : Unicode} (w : world) (now : Z) (t : jsstring) :
  newTitle (view w) = VString t ->
  Spec.whitespaceOnly t
  \/ (exists b, newNote (view w) = VString b /\ Spec.whitespaceOnly b) ->
  addOrEditNote (view w) now
  = Ok [ Call (setErrorModal (ErrorModalObj true "Please fill in all fields.")) ]
  /\ forall accepts,
       let w' := dispatch accepts (Handle h_addOrEditNote now) w in
       sent w' = sent w
       /\ errorModal (view w') = ErrorModalObj true "Please fill in all fields."
       /\ notes (view w') = notes (view w).
Proof.
  intros Ht Hblank.
  assert (allFieldsFilled (view w) = Ok false) as Hgate.
  { destruct Hblank as [Hw | (b & Hb & Hw)].
    - eapply allFieldsFilled_blank_title; eauto.
    - eapply allFieldsFilled_blank_body; eauto. }
  assert (addOrEditNote (view w) now
          = Ok [ Call (setErrorModal (ErrorModalObj true "Please fill in all fields.")) ])
    as Hres.
  { unfold addOrEditNote. now rewrite Hgate. }
  split; [exact Hres|].
  intros accepts. simpl. rewrite Hres. simpl. auto.
Qed.

Lemma addOrEditNote_rejects_blank_witness :
  addOrEditNote (view Sample.emptyBodyDraft) 5010
  = Ok [ Call (setErrorModal (ErrorModalObj true "Please fill in all fields.")) ]
  /\ forall accepts,
       let w' := dispatch accepts (Handle h_addOrEditNote 5010) Sample.emptyBodyDraft in
       sent w' = sent Sample.emptyBodyDraft
       /\ errorModal (view w') = ErrorModalObj true "Please fill in all fields."
       /\ notes (view w') = notes (view Sample.emptyBodyDraft).
Proof.
  apply (addOrEditNote_rejects_blank Sample.emptyBodyDraft 5010 "Trip").
  - reflexivity.
  - right. exists "". split; [reflexivity | constructor].
Defined.

(** ** The title search *)

Lemma titleContainsb_spec `{U : Unicode} (q : jsstring) (note : obj) :
  JsString.lowercaseLatin1 -> hasLatin1Title note -> JsString.isLatin1 q ->
  titleContainsb q note = true <-> Spec.titleContains q note.
Proof.
  intros HL (t & Ht & Hlat) Hq. unfold titleContainsb, Spec.titleContains.
  rewrite Ht, includes_toLowerCase_latin1 by assumption. split.
  - intros Hc. now exists t.
  - intros (t' & Ht' & Hc). congruence.
Qed.

Lemma hasLatin1Title_string (note : obj) : hasLatin1Title note -> hasStringTitle note.
Proof. intros (t & Ht & _). now exists t. Qed.

Lemma titleIncludes_string `{U : Unicode} (q : jsstring) (note : obj) :
  hasStringTitle note -> titleIncludes q note = Ok (titleContainsb q note).
Proof.
  intros [t Ht]. unfold titleIncludes, titleContainsb. now rewrite Ht.
Qed.

Lemma titleIncludes_throws `{U : Unicode} (q : jsstring) (note : obj) :
  ~ hasStringTitle note -> titleIncludes q note = Throw TypeError.
Proof.
  unfold hasStringTitle, titleIncludes. intros Hn.
  destruct (Js.get note "title") as [| | | |t]; try reflexivity.
  exfalso. apply Hn. now exists t.
Qed.

(** [filter] with a callback that does not throw is the filter of lists. *)
Lemma Js_filter_Ok {A} (p : A -> result bool) (f : A -> bool) (l : list A) :
  Forall (fun x => p x = Ok (f x)) l ->
  Js.filter p l = Ok (List.filter f l).
Proof.
  induction 1 as [|x l Hx _ IH]; [reflexivity|].
  simpl. now rewrite Hx, IH.
Qed.

Lemma List_filter_sublist {A} (f : A -> bool) (l : list A) :
  sublist (List.filter f l) l.
Proof.
  induction l as [|x l IH]; simpl; [constructor|].
  destruct (f x); now constructor.
Qed.

(** One callback that throws makes the whole [filter] throw. *)
Lemma Js_filter_Throw {A} (p : A -> result bool) (l : list A) :
  Forall (fun x => p x = Throw TypeError \/ exists b, p x = Ok b) l ->
  Exists (fun x => p x = Throw TypeError) l ->
  Js.filter p l = Throw TypeError.
Proof.
  intros Hall. induction 1 as [x l Hx | x l _ IH]; simpl.
  - now rewrite Hx.
  - inversion Hall as [|? ? Hhd Htl]; subst.
    destruct Hhd as [-> | [b ->]]; [reflexivity|]. simpl. now rewrite (IH Htl).
Qed.

(** With a query, a note whose title is not a string makes [handleSearch]
    throw; nothing is set then. *)
Lemma handleSearch_throws `{U : Unicode} (s : state) :
  searchQuery s <> [] ->
  Exists (fun n => ~ hasStringTitle n) (notes s) ->
  handleSearch s = Throw TypeError.
Proof.
  intros Hq Hex. unfold handleSearch.
  apply isEmpty_false in Hq. rewrite Hq.
  rewrite Js_filter_Throw; [reflexivity | |].
  - apply Forall_forall. intros n _. unfold titleIncludes.
    destruct (Js.toLowerCase (Js.get n "title")) as [t|[]]; simpl; eauto.
  - eapply Exists_impl; [exact Hex|]. intros n. apply titleIncludes_throws.
Qed.

(** What [handleSearch] stores, for every list of notes with strings as
    titles and every query: with a query, the notes whose title in lower
    case includes the query in lower case. *)
Lemma handleSearch_filter `{U : Unicode} (s : state) :
  Forall hasStringTitle (notes s) ->
  handleSearch s
  = Ok [ Call (setFilteredNotes
                 (if JsString.isEmpty (searchQuery s) then notes s
                  else List.filter (titleContainsb (searchQuery s)) (notes s))) ].
Proof.
  intros Htitles. unfold handleSearch.
  destruct (JsString.isEmpty (searchQuery s)); [reflexivity|].
  rewrite (Js_filter_Ok _ (titleContainsb (searchQuery s))); [reflexivity|].
  eapply Forall_impl; [exact Htitles|]. intros n. apply titleIncludes_string.
Qed.

(** X25: with the empty query [handleSearch] stores the list of notes
    itself.  On titles and queries whose code units are below U+0100, where
    [toLowerCase] works code unit by code unit, the search is the search up
    to case: with a query that is not empty [handleSearch] stores the notes
    whose title contains the query up to case, in their order: a
    subsequence of the list, each element of which matches, and which
    misses no matching element of the list. *)
Theorem handleSearch_filters_by_title `{U : Unicode} (s : state) :
  (searchQuery s = [] -> handleSearch s = Ok [ Call (setFilteredNotes (notes s)) ])
  /\ (JsString.lowercaseLatin1 ->
      searchQuery s <> [] -> JsString.isLatin1 (searchQuery s) ->
      Forall hasLatin1Title (notes s) ->
      exists filtered,
        handleSearch s = Ok [ Call (setFilteredNotes filtered) ]
        /\ filtered = List.filter (titleContainsb (searchQuery s)) (notes s)
        /\ sublist filtered (notes s)
        /\ Forall (Spec.titleContains (searchQuery s)) filtered
        /\ (forall n, n ∈ notes s -> Spec.titleContains (searchQuery s) n -> n ∈ filtered)).
Proof.
  split.
  - intros Hq. unfold handleSearch. now rewrite Hq.
  - intros HL Hq Hlat Htitles.
    exists (List.filter (titleContainsb (searchQuery s)) (notes s)).
    split; [|split; [reflexivity|split; [|split]]].
    + rewrite handleSearch_filter.
      * apply isEmpty_false in Hq. now rewrite Hq.
      * eapply Forall_impl; [exact Htitles|]. apply hasLatin1Title_string.
    + apply List_filter_sublist.
    + apply Forall_forall. intros n Hn.
      apply list_elem_of_In, filter_In in Hn as [Hn Hb].
      apply titleContainsb_spec; try assumption.
      rewrite Forall_forall in Htitles. now apply Htitles, list_elem_of_In.
    + intros n Hn Hc. apply list_elem_of_In, filter_In.
      split; [now apply list_elem_of_In|].
      apply titleContainsb_spec; try assumption.
      rewrite Forall_forall in Htitles. now apply Htitles.
Qed.

(** The scenario of the specification: "group" finds nothing in
    "Groceries", "Groc" finds it. *)
Lemma handleSearch_filters_by_title_witness :
  handleSearch (applySetter (setSearchQuery "group") (view Sample.loaded))
  = Ok [ Call (setFilteredNotes []) ]
  /\ handleSearch (applySetter (setSearchQuery "Groc") (view Sample.loaded))
     = Ok [ Call (setFilteredNotes [ noteOfDoc Sample.groceries ]) ]
  /\ handleSearch (view Sample.loaded)
     = Ok [ Call (setFilteredNotes [ noteOfDoc Sample.groceries ]) ].
Proof.
  assert (Forall hasLatin1Title [ noteOfDoc Sample.groceries ]) as Htitles.
  { repeat constructor. exists "Groceries". split; [reflexivity|].
    unfold JsString.isLatin1. vm_compute. repeat constructor. }
  assert (forall q : string, JsString.isLatin1 q -> q <> "" :> jsstring ->
            exists filtered,
              handleSearch (applySetter (setSearchQuery q) (view Sample.loaded))
              = Ok [ Call (setFilteredNotes filtered) ]
              /\ filtered
                 = List.filter (titleContainsb q) [ noteOfDoc Sample.groceries ])
    as Hsearch.
  { intros q Hlat Hq.
    destruct (handleSearch_filters_by_title
                (applySetter (setSearchQuery q) (view Sample.loaded))) as [_ H].
    destruct (H latinGreek_lowercaseLatin1 Hq Hlat Htitles)
      as (filtered & H1 & H2 & _).
    eauto. }
  split; [|split].
  - destruct (Hsearch "group") as (filtered & -> & ->).
    + unfold JsString.isLatin1. vm_compute. repeat constructor.
    + discriminate.
    + vm_compute. reflexivity.
  - destruct (Hsearch "Groc") as (filtered & -> & ->).
    + unfold JsString.isLatin1. vm_compute. repeat constructor.
    + discriminate.
    + vm_compute. reflexivity.
  - destruct (handleSearch_filters_by_title (view Sample.loaded)) as [H _].
    exact (H eq_refl).
Defined.

(** C2: the title U+039F U+0394 U+039F U+03A3 ("street" in Greek capitals)
    contains the query U+03BF U+03B4 U+03BF U+03C3, the same four letters in
    lower case, but [toLowerCase] turns the last letter of the title into
    the final sigma U+03C2, so the lower-case title does not include the
    lower-case query: [handleSearch] stores the empty list and the note is
    not found. *)
Lemma handleSearch_misses_final_sigma :
  let note := noteOfDoc Scenario.street in
  let s := view Scenario.streetQuery in
  notes s = [ note ]
  /\ searchQuery s = [ 959; 948; 959; 963 ]%N
  /\ Spec.titleContains (searchQuery s) note
  /\ Js.toLowerCase (Js.get note "title") = Ok [ 959; 948; 959; 962 ]%N
  /\ handleSearch s = Ok [ Call (setFilteredNotes []) ]
  /\ filteredNotes (view (dispatch Sample.accepting (Handle h_handleSearch 7000)
                            Scenario.streetQuery)) = [].
Proof.
  cbv zeta. split; [reflexivity|]. split; [reflexivity|]. split.
  - exists [ 927; 916; 927; 931 ]%N. split; [reflexivity|].
    exists [], [ 927; 916; 927; 931 ]%N, []. split; [reflexivity|].
    unfold Spec.equalIgnoringCase.
    change (Forall2 Spec.sameLetter [ 927; 916; 927; 931 ]%N [ 959; 948; 959; 963 ]%N).
    repeat (constructor 2; [right; left; split; [discriminate | reflexivity]|]).
    constructor 1.
  - split; [reflexivity|]. split; reflexivity.
Qed.
(** ** Creating, updating and deleting *)

Lemma toBoolean_nonblank (s : jsstring) :
  ~ Spec.whitespaceOnly s -> Js.toBoolean (VString s) = true.
Proof.
  intros H. simpl. destruct (JsString.isEmpty s) eqn:E; [|reflexivity].
  apply isEmpty_true in E. subst. exfalso. apply H. constructor.
Qed.

Lemma or_truthy_r (a b : value) :
  Js.toBoolean b = true -> Js.toBoolean (Js.or a b) = true.
Proof. intros H. unfold Js.or. now destruct (Js.toBoolean a) eqn:E. Qed.

Lemma or_truthy_l (a b : value) : Js.toBoolean a = true -> Js.or a b = a.
Proof. intros H. unfold Js.or. now rewrite H. Qed.

(** C5: in create mode ([editIndex] is null), with a user and a draft that
    passes the gate, [addOrEditNote] awaits one [addDoc] on the user's notes
    collection with the fields title, text, tag of the draft and
    [edit = Date.now()], and then closes the modal; it sets neither [notes]
    nor [filteredNotes]. *)
Theorem addOrEditNote_creates `{U : Unicode}
    (w : world) (now : Z) (u : User) (t b : jsstring) :
  editIndex (view w) = None ->
  user (view w) = Some u ->
  newTitle (view w) = VString t -> ~ Spec.whitespaceOnly t ->
  newNote (view w) = VString b -> ~ Spec.whitespaceOnly b ->
  Js.toBoolean (lastEdited (view w)) = true ->
  let noteData :=
    {| NoteData.title := VString t; NoteData.text := VString b;
       NoteData.edit := VNumber now; NoteData.tag := tag (view w) |} in
  let req :=
    AddDoc (collection [VString "users"; VString (uid u); VString "notes"]) noteData in
  addOrEditNote (view w) now = Ok (Await req :: closeModal)
  /\ requestsOf (Await req :: closeModal) = [ req ]
  /\ forall accepts,
       let w' := dispatch accepts (Handle h_addOrEditNote now) w in
       sent w' = sent w ++ [ req ]
       /\ notes (view w') = notes (view w)
       /\ filteredNotes (view w') = filteredNotes (view w).
Proof.
  intros Hidx Hu Ht Hwt Hb Hwb Hl noteData req.
  assert (addOrEditNote (view w) now = Ok (Await req :: closeModal)) as Hres.
  { unfold addOrEditNote.
    rewrite (allFieldsFilled_valid _ t b) by assumption.
    rewrite Hu, Hidx, bool_decide_is_Some. simpl.
    unfold req, noteData. now rewrite Ht, Hb. }
  split; [exact Hres|]. split; [reflexivity|].
  intros accepts. simpl. rewrite Hres. simpl.
  destruct (accepts req); simpl; auto.
Qed.

Lemma addOrEditNote_creates_witness :
  let noteData :=
    {| NoteData.title := VString "Trip"; NoteData.text := VString "<p>pack</p>";
       NoteData.edit := VNumber 5010; NoteData.tag := VString "Work" |} in
  let req :=
    AddDoc (collection [VString "users"; VString "alice"; VString "notes"]) noteData in
  addOrEditNote (view Sample.tripDraft) 5010 = Ok (Await req :: closeModal)
  /\ requestsOf (Await req :: closeModal) = [ req ]
  /\ forall accepts,
       let w' := dispatch accepts (Handle h_addOrEditNote 5010) Sample.tripDraft in
       sent w' = sent Sample.tripDraft ++ [ req ]
       /\ notes (view w') = notes (view Sample.tripDraft)
       /\ filteredNotes (view w') = filteredNotes (view Sample.tripDraft).
Proof.
  apply (addOrEditNote_creates Sample.tripDraft 5010 Sample.alice "Trip" "<p>pack</p>").
  - reflexivity.
  - reflexivity.
  - reflexivity.
  - not_blank.
  - reflexivity.
  - not_blank.
  - reflexivity.
Defined.

(** The note at [editIndex] and its [id], for [updateDoc] and [deleteDoc]. *)
Lemma getOf_index (l : list obj) (i : Z) (note : obj) (k : string) :
  Js.index l i = Some note -> Js.getOf (Js.index l i) k = Ok (Js.get note k).
Proof. now intros ->. Qed.

(** X27: with [editIndex = i] an index of [notes] when [deleteNote] is
    called, and a user, [deleteNote] awaits one [deleteDoc], on the document
    of that user whose id is [notes[i].id], and then runs [closeModal]: the
    animation flag is cleared and the modal is taken down 700 ms later. *)
Theorem deleteNote_deletes_edited `{U : Unicode}
    (w : world) (i now : Z) (note : obj) (u : User) :
  editIndex (view w) = Some i ->
  Js.index (notes (view w)) i = Some note ->
  user (view w) = Some u ->
  let req :=
    DeleteDoc (doc [VString "users"; VString (uid u); VString "notes"; Js.get note "id"]) in
  deleteNote (view w) = Ok (Await req :: closeModal)
  /\ requestsOf (Await req :: closeModal) = [ req ]
  /\ forall accepts,
       let w' := dispatch accepts (Handle h_deleteNote now) w in
       sent w' = sent w ++ [ req ]
       /\ notes (view w') = notes (view w)
       /\ (accepts req = true ->
           isAnimating (view w') = false
           /\ timers w' = timers w ++ [ (700, setIsModalOpen false) ]).
Proof.
  intros Hidx Hnote Hu req.
  assert (deleteNote (view w) = Ok (Await req :: closeModal)) as Hres.
  { unfold deleteNote. rewrite Hidx, Hu, (getOf_index _ _ note) by assumption.
    reflexivity. }
  split; [exact Hres|]. split; [reflexivity|].
  intros accepts. simpl. rewrite Hres. simpl.
  destruct (accepts req); simpl.
  - auto.
  - split; [reflexivity|]. split; [reflexivity|]. discriminate.
Qed.

Lemma deleteNote_deletes_edited_witness :
  let req :=
    DeleteDoc (doc [VString "users"; VString "alice"; VString "notes"; VString "1"]) in
  deleteNote (view Sample.editing) = Ok (Await req :: closeModal)
  /\ requestsOf (Await req :: closeModal) = [ req ]
  /\ forall accepts,
       let w' := dispatch accepts (Handle h_deleteNote 6100) Sample.editing in
       sent w' = sent Sample.editing ++ [ req ]
       /\ notes (view w') = notes (view Sample.editing)
       /\ (accepts req = true ->
           isAnimating (view w') = false
           /\ timers w' = timers Sample.editing ++ [ (700, setIsModalOpen false) ]).
Proof.
  apply (deleteNote_deletes_edited Sample.editing 0 6100
           (noteOfDoc Sample.groceries) Sample.alice); reflexivity.
Defined.

(** C7: the modal is opened in edit mode on a note and a user is resolved,
    but the list no longer has that note at [editIndex] when [deleteNote]
    is called.  With the groceries note (id 1) opened at index 0 and a
    snapshot that puts a newer note (id 2) first, [deleteNote] asks for the
    note of id 2 to be deleted, not the one on which the modal was opened;
    with the groceries note opened at index 1 and a snapshot without it,
    [deleteNote] throws: no request is sent and the modal stays open. *)
Lemma deleteNote_misses_opened_note :
  (let w := Scenario.reordered in
   editIndex (view w) = Some 0 /\ user (view w) = Some Sample.alice
   /\ isModalOpen (view w) = true
   /\ newTitle (view w) = VString "Groceries"
   /\ Js.get (noteOfDoc Sample.groceries) "id" = VString "1"
   /\ deleteNote (view w)
      = Ok (Await (DeleteDoc (doc [VString "users"; VString "alice"; VString "notes";
                                   VString "2"]))
              :: closeModal)
   /\ sent (dispatch Sample.accepting (Handle h_deleteNote 6500) w)
      = [ DeleteDoc (doc [VString "users"; VString "alice"; VString "notes";
                          VString "2"]) ])
  /\ (let w := Scenario.shrunk in
      editIndex (view w) = Some 1 /\ user (view w) = Some Sample.alice
      /\ isModalOpen (view w) = true
      /\ newTitle (view w) = VString "Groceries"
      /\ deleteNote (view w) = Throw TypeError
      /\ dispatch Sample.accepting (Handle h_deleteNote 6500) w = w
      /\ sent w = []).
Proof. vm_compute. repeat split. Qed.

(** C10: without an edited item ([editIndex] is null) or without a user,
    [deleteNote] does nothing: no request, no change of the notes, and the
    modal stays as it is. *)
Theorem deleteNote_noop `{U : Unicode} (w : world) :
  editIndex (view w) = None \/ user (view w) = None ->
  deleteNote (view w) = Ok []
  /\ forall accepts now, dispatch accepts (Handle h_deleteNote now) w = w.
Proof.
  intros H.
  assert (deleteNote (view w) = Ok []) as Hres.
  { unfold deleteNote. destruct H as [-> | ->]; [reflexivity|].
    now destruct (editIndex (view w)). }
  split; [exact Hres|]. intros accepts now. simpl. now rewrite Hres.
Qed.

Lemma deleteNote_noop_witness :
  deleteNote (view Sample.tripDraft) = Ok []
  /\ forall accepts now,
       dispatch accepts (Handle h_deleteNote now) Sample.tripDraft = Sample.tripDraft.
Proof. apply (deleteNote_noop Sample.tripDraft). left. reflexivity. Defined.

(** In edit mode, with a user and a draft that passes the gate,
    [addOrEditNote] awaits one [updateDoc] on the document whose id is
    [notes[editIndex].id]. *)
Lemma addOrEditNote_updates (s : state) (now i : Z) (note : obj) (u : User) (t b : jsstring) :
  editIndex s = Some i ->
  Js.index (notes s) i = Some note ->
  user s = Some u ->
  newTitle s = VString t -> ~ Spec.whitespaceOnly t ->
  newNote s = VString b -> ~ Spec.whitespaceOnly b ->
  Js.toBoolean (lastEdited s) = true ->
  addOrEditNote s now
  = Ok (Await (UpdateDoc
                 (doc [VString "users"; VString (uid u); VString "notes"; Js.get note "id"])
                 {| NoteData.title := VString t; NoteData.text := VString b;
                    NoteData.edit := VNumber now; NoteData.tag := tag s |})
        :: closeModal).
Proof.
  intros Hidx Hnote Hu Ht Hwt Hb Hwb Hl. unfold addOrEditNote.
  rewrite (allFieldsFilled_valid _ t b) by assumption.
  rewrite Hu, Hidx, bool_decide_is_Some, (getOf_index _ _ note) by assumption.
  simpl. now rewrite Ht, Hb.
Qed.

(** What [openModal(i)] leaves in the state. *)
Lemma openModal_edit `{U : Unicode}
    (accepts : request -> bool) (w : world) (i now : Z) (note : obj) :
  Js.index (notes (view w)) i = Some note ->
  let w1 := dispatch accepts (Handle (h_openModal (Some i)) now) w in
  sent w1 = sent w
  /\ notes (view w1) = notes (view w)
  /\ user (view w1) = user (view w)
  /\ editIndex (view w1) = Some i
  /\ newTitle (view w1) = Js.get note "title"
  /\ newNote (view w1) = Js.or (Js.get note "text") (VString "")
  /\ lastEdited (view w1) = Js.or (Js.get note "edit") (VNumber now)
  /\ tag (view w1) = Js.get note "tag".
Proof.
  intros Hnote. simpl. unfold openModal. rewrite Hnote. simpl. tauto.
Qed.

(** C3, as the code has it: [openModal(i)] on a note with a non-blank title
    and body, followed at once by [addOrEditNote], sends one [updateDoc] for
    the id of note [i] whose title, text and tag are those of the note and
    whose [edit] is the reading of the client's clock at the submission.
    That reading exceeds the former [edit] of the note when the clock is
    past it, and only then. *)
Theorem openModal_submit_round_trip `{U : Unicode}
    (w : world) (i now1 now2 : Z) (note : obj) (u : User) (t b : jsstring) :
  Js.index (notes (view w)) i = Some note ->
  user (view w) = Some u ->
  Js.get note "title" = VString t -> ~ Spec.whitespaceOnly t ->
  Js.get note "text" = VString b -> ~ Spec.whitespaceOnly b ->
  now1 <> 0 ->
  forall accepts,
    let w' :=
      run accepts [ Handle (h_openModal (Some i)) now1; Handle h_addOrEditNote now2 ] w in
    exists data,
      sent w'
      = sent w ++ [ UpdateDoc
                      (doc [VString "users"; VString (uid u); VString "notes";
                            Js.get note "id"]) data ]
      /\ NoteData.title data = Js.get note "title"
      /\ NoteData.text data = Js.get note "text"
      /\ NoteData.tag data = Js.get note "tag"
      /\ NoteData.edit data = VNumber now2
      /\ forall e, Js.get note "edit" = VNumber e ->
           (e < now2 <-> exists e', NoteData.edit data = VNumber e' /\ e < e').
Proof.
  intros Hnote Hu Ht Hwt Hb Hwb Hnow accepts.
  unfold run. cbn [foldl].
  destruct (openModal_edit accepts w i now1 note Hnote)
    as (Hsent & Hnotes & Huser & Hidx & Htitle & Htext & Hlast & Htag).
  set (w1 := dispatch accepts (Handle (h_openModal (Some i)) now1) w) in *.
  rewrite or_truthy_l in Htext by (rewrite Hb; now apply toBoolean_nonblank).
  assert (Js.toBoolean (lastEdited (view w1)) = true) as Hl.
  { rewrite Hlast. apply or_truthy_r. simpl.
    destruct (now1 =? 0) eqn:E; [|reflexivity]. apply Z.eqb_eq in E. contradiction. }
  pose proof (addOrEditNote_updates (view w1) now2 i note u t b) as Hres.
  rewrite Hnotes, Huser, Htitle, Htext in Hres.
  specialize (Hres Hidx Hnote Hu Ht Hwt Hb Hwb Hl).
  eexists. cbn [dispatch call]. rewrite Hres. cbn [exec sent].
  split.
  { destruct (accepts _); simpl; rewrite Hsent; reflexivity. }
  simpl. rewrite Ht, Hb, Htag. repeat split; auto.
  - intros Hlt. eauto.
  - intros (e' & He' & Hlt). now injection He' as <-.
Qed.

Lemma openModal_submit_round_trip_witness :
  let w' :=
    run Sample.accepting
      [ Handle (h_openModal (Some 0)) 6000; Handle h_addOrEditNote 6500 ] Sample.loaded in
  exists data,
    sent w'
    = sent Sample.loaded
      ++ [ UpdateDoc (doc [VString "users"; VString "alice"; VString "notes";
                           VString "1"]) data ]
    /\ NoteData.title data = VString "Groceries"
    /\ NoteData.text data = VString "<p>milk</p>"
    /\ NoteData.tag data = VString "Personal"
    /\ NoteData.edit data = VNumber 6500
    /\ forall e, VNumber 100 = VNumber e ->
         (e < 6500 <-> exists e', NoteData.edit data = VNumber e' /\ e < e').
Proof.
  apply (openModal_submit_round_trip Sample.loaded 0 6000 6500
           (noteOfDoc Sample.groceries) Sample.alice "Groceries" "<p>milk</p>").
  - reflexivity.
  - reflexivity.
  - reflexivity.
  - not_blank.
  - reflexivity.
  - not_blank.
  - lia.
Defined.

(** Against C3 as it is worded: the note was stamped by a clock a minute ahead, and
    the [edit] of the update sent for it is not greater than the one it
    had. *)
Lemma round_trip_edit_not_greater :
  let note := noteOfDoc Sample.minutes in
  let w' :=
    run Sample.accepting
      [ Handle (h_openModal (Some 0)) 1700000000000;
        Handle h_addOrEditNote 1700000005000 ] Sample.loadedMinutes in
  Js.index (notes (view Sample.loadedMinutes)) 0 = Some note
  /\ ~ exists ref data e e',
         sent w' = [ UpdateDoc ref data ]
         /\ Js.get note "edit" = VNumber e
         /\ NoteData.edit data = VNumber e'
         /\ e < e'.
Proof.
  split; [reflexivity|].
  intros (ref & data & e & e' & Hsent & He & He' & Hlt).
  vm_compute in Hsent. injection Hsent as _ <-.
  vm_compute in He, He'. injection He as <-. injection He' as <-. lia.
Qed.

(** ** The subscription *)

(** A field of the data named [id] takes the place of the document's id in
    the note, the data being spread after [id]. *)
Lemma noteOfDoc_id (d : document) :
  Js.get (noteOfDoc d) "id" = default (VString (doc_id d)) (doc_data d !! "id").
Proof.
  unfold Js.get, noteOfDoc. rewrite lookup_union.
  destruct (doc_data d !! "id") as [v|] eqn:E; simpl.
  - now rewrite union_Some_l.
  - now rewrite lookup_singleton_eq.
Qed.

Lemma noteOfDoc_field (d : document) (k : string) :
  k <> "id" -> noteOfDoc d !! k = doc_data d !! k.
Proof.
  intros Hk. unfold noteOfDoc. rewrite lookup_union, lookup_singleton_ne by congruence.
  now destruct (doc_data d !! k).
Qed.

(** X26: the callback for a snapshot sets [notes] to the list made of the
    snapshot's documents, whatever it was before: one note per document, in
    order, with the fields of the document's data and, the data having no
    field named [id] of its own, the id the store gave the document; the
    callback for an error logs it and leaves [notes] alone.  Both clear
    [loading], send nothing and cannot throw. *)
Theorem snapshot_replaces_notes
    (accepts : request -> bool) (w : world) (docs : list document) (e : FirestoreError) :
  (let w' := exec accepts (onNext docs) w in
   notes (view w') = map noteOfDoc docs
   /\ Forall2 (fun note d =>
                 (doc_data d !! "id" = None -> Js.get note "id" = VString (doc_id d))
                 /\ forall k, k <> "id" -> note !! k = doc_data d !! k)
              (notes (view w')) docs
   /\ loading (view w') = false
   /\ sent w' = sent w /\ console w' = console w)
  /\ (let w' := exec accepts (onError e) w in
      notes (view w') = notes (view w)
      /\ console w' = console w ++ [ ("Error fetching notes: ", e) ]
      /\ loading (view w') = false
      /\ sent w' = sent w).
Proof.
  split; simpl; [|auto].
  split; [reflexivity|]. split; [|auto].
  induction docs as [|d docs IH]; simpl; constructor; [|exact IH].
  split.
  - intros Hid. now rewrite noteOfDoc_id, Hid.
  - apply noteOfDoc_field.
Qed.

Lemma snapshot_replaces_notes_witness :
  let w' := exec Sample.accepting (onNext [ Sample.minutes ]) Sample.loaded in
  notes (view w') = [ noteOfDoc Sample.minutes ]
  /\ Js.get (noteOfDoc Sample.minutes) "id" = VString "2"
  /\ loading (view w') = false.
Proof.
  destruct (snapshot_replaces_notes Sample.accepting Sample.loaded [ Sample.minutes ]
              (FsError "unavailable")) as [(Hnotes & Hdocs & Hloading & _) _].
  split; [exact Hnotes|]. split; [|exact Hloading].
  cbv zeta in Hdocs. rewrite Hnotes in Hdocs.
  apply Forall2_cons_1 in Hdocs as [[Hid _] _]. apply Hid. reflexivity.
Defined.

(** C4: a document of id 7 whose data has a field named [id] of its own,
    holding "own".  The callback for the snapshot spreads the data after
    [id], so the note of the mirrored list carries "own" and not the id the
    store gave the document; a delete from the modal opened on that note is
    then asked of the document "own". *)
Lemma snapshot_note_loses_store_id :
  let w := run Sample.accepting [ Snapshot [ Scenario.shadowed ] ]
             (mount (Some Sample.alice)) in
  doc_id Scenario.shadowed = "7"
  /\ notes (view w) = [ noteOfDoc Scenario.shadowed ]
  /\ Js.get (noteOfDoc Scenario.shadowed) "id" = VString "own"
  /\ Js.get (noteOfDoc Scenario.shadowed) "id" <> VString (doc_id Scenario.shadowed)
  /\ sent (dispatch Sample.accepting (Handle h_deleteNote 6500) Scenario.shadowedEditing)
     = [ DeleteDoc (doc [VString "users"; VString "alice"; VString "notes";
                         VString "own"]) ].
Proof.
  cbv zeta. split; [reflexivity|]. split; [reflexivity|].
  split; [reflexivity|]. split; [|reflexivity].
  vm_compute. discriminate.
Qed.

(** ** Without a user *)

Lemma exec_sent_no_request (accepts : request -> bool) (acts : list action) (w : world) :
  requestsOf acts = [] -> sent (exec accepts acts w) = sent w.
Proof.
  revert w. induction acts as [|a acts IH]; intros w H; [reflexivity|].
  destruct a; simpl in *; try discriminate; now rewrite IH.
Qed.

Lemma addOrEditNote_no_user (s : state) (now : Z) :
  user s = None ->
  match addOrEditNote s now with
  | Ok acts => requestsOf acts = []
  | Throw _ => True
  end.
Proof.
  intros Hu. unfold addOrEditNote.
  destruct (allFieldsFilled s) as [filled|err]; simpl; [|exact I].
  rewrite Hu. now destruct filled.
Qed.

Lemma call_no_user `{U : Unicode} (h : handler) (s : state) (now : Z) :
  user s = None ->
  match call h s now with
  | Ok acts => requestsOf acts = []
  | Throw _ => True
  end.
Proof.
  intros Hu. destruct h; simpl; try reflexivity.
  - unfold openModal. destruct index as [i|]; [|reflexivity].
    now destruct (Js.index (notes s) i).
  - now apply addOrEditNote_no_user.
  - unfold deleteNote. rewrite Hu. now destruct (editIndex s).
  - unfold handleSearch. destruct (JsString.isEmpty (searchQuery s)); [reflexivity|].
    now destruct (Js.filter _ _).
Qed.

(** C8: while no user is resolved the effect subscribes to nothing, at the
    mount and after any change of the user to none; [addOrEditNote] sends
    neither [addDoc] nor [updateDoc] whatever the draft holds (it opens the
    error modal or throws); [deleteNote] does nothing; and no handler of the
    page sends a request. *)
Theorem no_user_no_activity `{U : Unicode} (w : world) :
  user (view w) = None ->
  notesEffect (user (view w)) = None
  /\ subscription (mount (user (view w))) = None
  /\ (forall accepts w0,
        subscription (dispatch accepts (AuthState (user (view w))) w0) = None)
  /\ (forall now,
        match addOrEditNote (view w) now with
        | Ok acts => requestsOf acts = []
        | Throw _ => True
        end)
  /\ deleteNote (view w) = Ok []
  /\ (forall accepts h now, sent (dispatch accepts (Handle h now) w) = sent w).
Proof.
  intros Hu. rewrite Hu. repeat split.
  - intros now. now apply addOrEditNote_no_user.
  - unfold deleteNote. rewrite Hu. now destruct (editIndex (view w)).
  - intros accepts h now. simpl.
    pose proof (call_no_user h (view w) now Hu) as H.
    destruct (call h (view w) now); [|reflexivity].
    now apply exec_sent_no_request.
Qed.

Lemma no_user_no_activity_witness :
  notesEffect None = None
  /\ (forall now,
        match addOrEditNote (view (mount None)) now with
        | Ok acts => requestsOf acts = []
        | Throw _ => True
        end)
  /\ deleteNote (view (mount None)) = Ok []
  /\ (forall accepts h now,
        sent (dispatch accepts (Handle h now) (mount None)) = sent (mount None)).
Proof.
  destruct (no_user_no_activity (mount None) eq_refl) as (H1 & _ & _ & H2 & H3 & H4).
  repeat split; assumption.
Defined.

(** ** Rendering the body of a note *)

Section RenderProperties.

Variable sanitize : value -> jsstring.
Variable toLocaleString : value -> jsstring.

Lemma innerHTMLs_renderFilteredNote (s : state) (note : obj) :
innerHTMLs (renderFilteredNote sanitize toLocaleString s note)
= [ sanitize (Js.get note "text") ].
Proof. reflexivity. Qed.

Lemma innerHTMLs_renderNote (i : nat) (note : obj) :
innerHTMLs (renderNote sanitize toLocaleString i note)
= [ sanitize (Js.get note "text") ].
Proof. reflexivity. Qed.

Lemma innerHTMLs_items {A} (f : A -> node) (g : A -> jsstring) (l : list A) :
(forall x, innerHTMLs (f x) = [ g x ]) ->
concat (map innerHTMLs (map f l)) = map g l.
Proof.
intros H. induction l as [|x l IH]; simpl; [reflexivity|].
now rewrite H, IH.
Qed.

Lemma innerHTMLs_indexed_items {A} (f : nat -> A -> node) (g : A -> jsstring) (l : list A) :
(forall i x, innerHTMLs (f i x) = [ g x ]) ->
concat (map innerHTMLs (imap f l)) = map g l.
Proof.
revert f. induction l as [|x l IH]; intros f H; simpl; [reflexivity|].
rewrite H, IH; [reflexivity|]. intros i y. apply H.
Qed.

Lemma innerHTMLs_Element (name : string) (attrs : list attr) (children : list node) :
innerHTMLs (Element name attrs children)
= omap innerHTMLOf attrs ++ concat (map innerHTMLs children).
Proof. reflexivity. Qed.

Lemma innerHTMLs_renderSearch (s : state) :
innerHTMLs (renderSearch sanitize toLocaleString s)
= map (fun note => sanitize (Js.get note "text")) (filteredNotes s).
Proof.
unfold renderSearch. rewrite innerHTMLs_Element. cbn [map concat].
rewrite (innerHTMLs_Element "div" [] (map _ _)).
rewrite (innerHTMLs_items _ (fun note => sanitize (Js.get note "text")))
  by apply innerHTMLs_renderFilteredNote.
simpl. now rewrite app_nil_r.
Qed.

Lemma innerHTMLs_renderList (s : state) :
innerHTMLs (renderList sanitize toLocaleString s)
= map (fun note => sanitize (Js.get note "text")) (notes s).
Proof.
unfold renderList. rewrite innerHTMLs_Element. cbn [map concat].
case_bool_decide as Hlen.
- rewrite innerHTMLs_Element.
  rewrite (innerHTMLs_indexed_items _ (fun note => sanitize (Js.get note "text")))
    by apply innerHTMLs_renderNote.
  simpl. now rewrite app_nil_r.
- destruct (notes s); [reflexivity | simpl in Hlen; lia].
Qed.

(** C6: an item of the filtered list and an item of the full list each put
  the note's [text] into the page once, as the markup
  [DOMPurify.sanitize(note.text)], and their escaped children are the
  title and the tag; all the markup the page inserts is the sanitized
  text of the filtered notes followed by that of the notes. *)
Theorem body_rendered_sanitized (s : state) :
(forall note,
   innerHTMLs (renderFilteredNote sanitize toLocaleString s note)
   = [ sanitize (Js.get note "text") ]
   /\ exprs (renderFilteredNote sanitize toLocaleString s note)
      = [ Js.get note "title"; Js.get note "tag" ])
/\ (forall i note,
      innerHTMLs (renderNote sanitize toLocaleString i note)
      = [ sanitize (Js.get note "text") ]
      /\ exprs (renderNote sanitize toLocaleString i note)
         = [ Js.get note "title"; Js.get note "tag" ])
/\ innerHTMLs (render sanitize toLocaleString s)
   = if loading s then []
     else map (fun note => sanitize (Js.get note "text")) (filteredNotes s)
          ++ map (fun note => sanitize (Js.get note "text")) (notes s).
Proof.
split; [now intros note|]. split; [now intros i note|].
unfold render. destruct (loading s); [reflexivity|].
rewrite innerHTMLs_Element. cbn [map concat].
rewrite innerHTMLs_renderSearch, innerHTMLs_renderList. simpl.
now rewrite app_nil_r.
Qed.

End RenderProperties.

(** ** The filter as a function of the list and the query *)

Lemma handleSearch_searchFilter `{U : Unicode} (s : state) :
  handleSearch s
  = Js.bind (searchFilter (notes s) (searchQuery s))
      (fun r => Ok [ Call (setFilteredNotes r) ]).
Proof.
  unfold handleSearch, searchFilter.
  now destruct (JsString.isEmpty (searchQuery s)).
Qed.

Lemma dispatch_handleSearch_Ok `{U : Unicode}
    (accepts : request -> bool) (now : Z) (w : world) (r : list obj) :
  searchFilter (notes (view w)) (searchQuery (view w)) = Ok r ->
  dispatch accepts (Handle h_handleSearch now) w
  = withView (applySetter (setFilteredNotes r)) w.
Proof. intros Hr. simpl. now rewrite handleSearch_searchFilter, Hr. Qed.

Lemma dispatch_handleSearch_Throw `{U : Unicode}
    (accepts : request -> bool) (now : Z) (w : world) (e : error) :
  searchFilter (notes (view w)) (searchQuery (view w)) = Throw e ->
  dispatch accepts (Handle h_handleSearch now) w = w.
Proof. intros Hr. simpl. now rewrite handleSearch_searchFilter, Hr. Qed.

Lemma applySetter_keepsFiltered (u : setter) (s : state) :
  keepsFiltered u -> filteredNotes (applySetter u s) = filteredNotes s.
Proof. destruct u; simpl; try contradiction; reflexivity. Qed.

(** Effects other than [setFilteredNotes] leave the stored list as it is,
    and the timers they start do so when they fire. *)
Lemma exec_keepsFiltered (accepts : request -> bool) (acts : list action) (w : world) :
  Forall keepsFilteredNotes acts ->
  Forall (fun t => keepsFiltered (snd t)) (timers w) ->
  filteredNotes (view (exec accepts acts w)) = filteredNotes (view w)
  /\ Forall (fun t => keepsFiltered (snd t)) (timers (exec accepts acts w)).
Proof.
  intros Hacts. revert w. induction Hacts as [|a acts Ha _ IH]; intros w Hw; [now split|].
  destruct a as [u|r|cb delay|m e]; cbn [exec].
  - destruct (IH (withView (applySetter u) w) Hw) as [H1 H2].
    split; [|exact H2]. rewrite H1. now apply applySetter_keepsFiltered.
  - destruct (accepts r); [|now split].
    match goal with |- context [exec accepts acts ?w0] => destruct (IH w0 Hw) as [H1 H2] end.
    now split.
  - match goal with |- context [exec accepts acts ?w0] =>
      assert (Forall (fun t => keepsFiltered (snd t)) (timers w0)) as Hw0
    end.
    { cbn [timers]. apply Forall_app. split; [exact Hw|].
      constructor; [exact Ha | constructor]. }
    match goal with |- context [exec accepts acts ?w0] => destruct (IH w0 Hw0) as [H1 H2] end.
    now split.
  - match goal with |- context [exec accepts acts ?w0] => destruct (IH w0 Hw) as [H1 H2] end.
    now split.
Qed.

(** [handleSearch] is the only handler with [setFilteredNotes] among its
    effects. *)
Lemma call_keepsFiltered `{U : Unicode}
    (h : handler) (s : state) (now : Z) (acts : list action) :
  h <> h_handleSearch ->
  call h s now = Ok acts -> Forall keepsFilteredNotes acts.
Proof.
  intros Hh.
  destruct h; simpl; try (intros E; injection E as <-; now repeat constructor).
  - unfold openModal. destruct index as [i|].
    + destruct (Js.index (notes s) i); [|discriminate].
      intros E; injection E as <-; now repeat constructor.
    + intros E; injection E as <-; now repeat constructor.
  - unfold addOrEditNote.
    destruct (allFieldsFilled s) as [filled|err]; simpl; [|discriminate].
    destruct filled, (user s) as [u|];
      try (intros E; injection E as <-; now repeat constructor).
    destruct (editIndex s) as [i|].
    + destruct (Js.getOf (Js.index (notes s) i) "id") as [id|err]; simpl;
        [|discriminate].
      intros E; injection E as <-; now repeat constructor.
    + intros E; injection E as <-; now repeat constructor.
  - unfold deleteNote. destruct (editIndex s) as [i|], (user s) as [u|];
      try (intros E; injection E as <-; now repeat constructor).
    destruct (Js.getOf (Js.index (notes s) i) "id") as [id|err]; simpl;
      [|discriminate].
    intros E; injection E as <-; now repeat constructor.
  - contradiction.
Qed.

(** Whatever happens to the page other than a click on the search icon, the
    stored list stays as it is. *)
Lemma dispatch_keepsFiltered `{U : Unicode}
    (accepts : request -> bool) (ev : event) (w : world) :
  noSearchClick ev ->
  Forall (fun t => keepsFiltered (snd t)) (timers w) ->
  filteredNotes (view (dispatch accepts ev w)) = filteredNotes (view w)
  /\ Forall (fun t => keepsFiltered (snd t)) (timers (dispatch accepts ev w)).
Proof.
  intros Hev Hw. destruct ev as [h now|docs|e|k|u]; cbn [dispatch].
  - destruct (call h (view w) now) as [acts|err] eqn:Hcall; [|now split].
    apply exec_keepsFiltered; [|exact Hw].
    apply (call_keepsFiltered h (view w) now); [|exact Hcall].
    intros ->. exact Hev.
  - destruct (subscription w); [|now split].
    apply exec_keepsFiltered; [|exact Hw]. now repeat constructor.
  - destruct (subscription w); [|now split].
    apply exec_keepsFiltered; [|exact Hw]. now repeat constructor.
  - destruct (timers w !! k) as [[delay cb]|] eqn:Hk; [|now split].
    cbn [view timers]. split.
    + apply applySetter_keepsFiltered.
      rewrite Forall_forall in Hw. apply (Hw (delay, cb)).
      now apply list_elem_of_lookup_2 in Hk.
    + now apply Forall_delete.
  - now split.
Qed.

Lemma run_keepsFiltered `{U : Unicode}
    (accepts : request -> bool) (evs : list event) (w : world) :
  Forall noSearchClick evs ->
  Forall (fun t => keepsFiltered (snd t)) (timers w) ->
  filteredNotes (view (run accepts evs w)) = filteredNotes (view w).
Proof.
  intros Hevs. revert w. unfold run.
  induction Hevs as [|ev evs Hev _ IH]; intros w Hw; [reflexivity|].
  cbn [foldl]. destruct (dispatch_keepsFiltered accepts ev w Hev Hw) as [H1 H2].
  now rewrite (IH _ H2).
Qed.

(** C9, as the code has it: what [handleSearch] computes depends on the
    pair ([notes], [searchQuery]) alone, its only effect is to store the
    result in [filteredNotes], and running it again changes nothing more.
    The stored list is what the page displays below the search box: it is
    the filter of the current list and query right after [handleSearch] has
    run; it is empty in the initial state and stays so on a mounted page as
    long as the search icon has not been clicked, whatever else has
    happened; and typing a query sets [searchQuery] and leaves the stored
    list as it was. *)
Theorem search_filter_rederivable `{U : Unicode} (w : world) :
  (forall s1 s2,
     notes s1 = notes s2 -> searchQuery s1 = searchQuery s2 ->
     handleSearch s1 = handleSearch s2)
  /\ (forall s,
        handleSearch s
        = Js.bind (searchFilter (notes s) (searchQuery s))
            (fun r => Ok [ Call (setFilteredNotes r) ]))
  /\ (forall accepts now r,
        searchFilter (notes (view w)) (searchQuery (view w)) = Ok r ->
        let w' := dispatch accepts (Handle h_handleSearch now) w in
        filteredNotes (view w') = r
        /\ searchFilter (notes (view w')) (searchQuery (view w')) = Ok r
        /\ notes (view w') = notes (view w)
        /\ sent w' = sent w /\ timers w' = timers w /\ console w' = console w)
  /\ (forall accepts now now',
        let w' := dispatch accepts (Handle h_handleSearch now) w in
        dispatch accepts (Handle h_handleSearch now') w' = w')
  /\ (forall sanitize toLocaleString s,
        innerHTMLs (renderSearch sanitize toLocaleString s)
        = map (fun note => sanitize (Js.get note "text")) (filteredNotes s))
  /\ (forall u, filteredNotes (initialState u) = [])
  /\ (forall u accepts evs,
        Forall noSearchClick evs ->
        filteredNotes (view (run accepts evs (mount u))) = [])
  /\ (forall accepts q now,
        let w' := dispatch accepts (Handle (h_setSearchQuery q) now) w in
        searchQuery (view w') = q
        /\ filteredNotes (view w') = filteredNotes (view w)
        /\ notes (view w') = notes (view w)
        /\ sent w' = sent w /\ timers w' = timers w /\ console w' = console w).
Proof.
  split; [|split; [|split; [|split; [|split; [|split; [|split]]]]]].
  - intros s1 s2 Hn Hq. rewrite !handleSearch_searchFilter. now rewrite Hn, Hq.
  - apply handleSearch_searchFilter.
  - intros accepts now r Hr. rewrite (dispatch_handleSearch_Ok _ _ _ r Hr).
    simpl. rewrite Hr. auto 10.
  - intros accepts now now'.
    destruct (searchFilter (notes (view w)) (searchQuery (view w))) as [r|err] eqn:Hr.
    + cbv zeta. rewrite (dispatch_handleSearch_Ok _ _ _ r Hr).
      now rewrite (dispatch_handleSearch_Ok _ _ _ r).
    + cbv zeta. rewrite (dispatch_handleSearch_Throw _ _ _ err Hr).
      apply (dispatch_handleSearch_Throw _ _ _ err Hr).
  - intros sanitize toLocaleString s. apply innerHTMLs_renderSearch.
  - reflexivity.
  - intros u accepts evs Hevs.
    rewrite (run_keepsFiltered accepts evs (mount u) Hevs); [reflexivity|].
    constructor.
  - intros accepts q now. simpl. auto 10.
Qed.

(** Against C9 as it is worded: after the first snapshot the page displays an empty
    filtered list, while the filter of the list and the (empty) query is the
    whole list. *)
Lemma displayed_filter_stale :
  ~ forall u w,
      reachable u w ->
      searchFilter (notes (view w)) (searchQuery (view w)) = Ok (filteredNotes (view w)).
Proof.
  intros H.
  specialize (H (Some Sample.alice) Sample.loaded).
  assert (reachable (Some Sample.alice) Sample.loaded) as Hreach.
  { exists Sample.accepting, [ Snapshot [ Sample.groceries ] ]. reflexivity. }
  specialize (H Hreach). vm_compute in H. discriminate H.
Qed.

(** ** What the page writes

    The documents the page itself puts into the collection have a non-blank
    string as title and as text and the clock reading as [edit]; their data
    has the four fields of [noteData] and so none named [id]. *)

Lemma allFieldsFilled_true (s : state) :
  allFieldsFilled s = Ok true ->
  exists t b,
    newTitle s = VString t /\ ~ Spec.whitespaceOnly t
    /\ newNote s = VString b /\ ~ Spec.whitespaceOnly b
    /\ Js.toBoolean (lastEdited s) = true /\ is_Some (user s).
Proof.
  unfold allFieldsFilled.
  destruct (newTitle s) as [| | | |t]; simpl; try discriminate.
  destruct (JsString.isEmpty (JsString.trim t)) eqn:Et; [discriminate|].
  destruct (newNote s) as [| | | |b]; simpl; try discriminate.
  destruct (JsString.isEmpty (JsString.trim b)) eqn:Eb; [discriminate|].
  destruct (Js.toBoolean (lastEdited s)); simpl; [|discriminate].
  intros H. injection H as H. apply bool_decide_eq_true in H.
  exists t, b. rewrite <- !trim_empty.
  apply isEmpty_false in Et, Eb. auto 10.
Qed.

Lemma addOrEditNote_writes_wellformed
    (s : state) (now : Z) (acts : list action) (r : request) :
  addOrEditNote s now = Ok acts ->
  r ∈ requestsOf acts ->
  exists ref data t b,
    (r = AddDoc ref data \/ r = UpdateDoc ref data)
    /\ NoteData.title data = VString t /\ ~ Spec.whitespaceOnly t
    /\ NoteData.text data = VString b /\ ~ Spec.whitespaceOnly b
    /\ NoteData.edit data = VNumber now.
Proof.
  unfold addOrEditNote.
  destruct (allFieldsFilled s) as [[|]|err] eqn:Hgate; simpl; try discriminate.
  - destruct (allFieldsFilled_true s Hgate) as (t & b & Ht & Hwt & Hb & Hwb & _ & _).
    destruct (user s) as [u|].
    + destruct (editIndex s) as [i|].
      * destruct (Js.getOf (Js.index (notes s) i) "id") as [id|err]; simpl;
          [|discriminate].
        intros H Hr. injection H as <-. simpl in Hr.
        apply list_elem_of_singleton in Hr. subst r.
        do 2 eexists. exists t, b. split; [right; reflexivity|]. simpl. auto 10.
      * intros H Hr. injection H as <-. simpl in Hr.
        apply list_elem_of_singleton in Hr. subst r.
        do 2 eexists. exists t, b. split; [left; reflexivity|]. simpl. auto 10.
    + intros H Hr. injection H as <-. simpl in Hr. now apply elem_of_nil in Hr.
  - intros H Hr. destruct (user s); injection H as <-; simpl in Hr;
      now apply elem_of_nil in Hr.
Qed.

(** * Further properties of the page *)

(** ** Opening the modal *)

Lemma index_None {A} (l : list A) (i : Z) :
  Js.index l i = None <-> i < 0 \/ Z.of_nat (length l) <= i.
Proof.
  unfold Js.index. destruct (i <? 0) eqn:E.
  - apply Z.ltb_lt in E. split; auto.
  - apply Z.ltb_ge in E. rewrite lookup_ge_None. lia.
Qed.

Lemma index_Some_range {A} (l : list A) (i : Z) (x : A) :
  Js.index l i = Some x -> 0 <= i < Z.of_nat (length l).
Proof.
  intros H. destruct (Z.lt_ge_cases i 0) as [Hneg|Hpos].
  - assert (Js.index l i = None) as E by (apply index_None; auto). congruence.
  - destruct (Z.lt_ge_cases i (Z.of_nat (length l))) as [Hlt|Hge]; [lia|].
    assert (Js.index l i = None) as E by (apply index_None; auto). congruence.
Qed.

(** X1: [openModal(i)] throws exactly when [i] is not an index of [notes]
    (negative, as the -1 of [findIndex], or past the end); the click then
    changes nothing: the draft, [editIndex] and the modal stay as they
    were. *)
Theorem openModal_throws_out_of_range `{U : Unicode}
    (accepts : request -> bool) (w : world) (i now : Z) :
  (openModal (view w) (Some i) now = Throw TypeError
   <-> i < 0 \/ Z.of_nat (length (notes (view w))) <= i)
  /\ (i < 0 \/ Z.of_nat (length (notes (view w))) <= i ->
      dispatch accepts (Handle (h_openModal (Some i)) now) w = w).
Proof.
  assert (openModal (view w) (Some i) now = Throw TypeError
          <-> i < 0 \/ Z.of_nat (length (notes (view w))) <= i) as Hiff.
  { rewrite <- index_None. unfold openModal.
    destruct (Js.index (notes (view w)) i); split; congruence. }
  split; [exact Hiff|].
  intros Hout. apply Hiff in Hout. cbn [dispatch call]. now rewrite Hout.
Qed.

Lemma openModal_throws_out_of_range_witness :
  openModal (view Sample.loaded) (Some (-1)) 7000 = Throw TypeError
  /\ dispatch Sample.accepting (Handle (h_openModal (Some 1)) 7000) Sample.loaded
     = Sample.loaded.
Proof.
  destruct (openModal_throws_out_of_range Sample.accepting Sample.loaded (-1) 7000)
    as [H1 _].
  destruct (openModal_throws_out_of_range Sample.accepting Sample.loaded 1 7000)
    as [_ H2].
  split; [apply H1; left; lia | apply H2; right; simpl; lia].
Defined.

(** X2: Whatever draft was there, the modal opened by "+ Create" holds an empty
    title and body, so submitting it at once is refused with the error
    modal, and nothing is sent. *)
Theorem fresh_create_modal_rejected `{U : Unicode}
    (accepts : request -> bool) (w : world) (now1 now2 : Z) :
  let w' :=
    run accepts [ Handle (h_openModal None) now1; Handle h_addOrEditNote now2 ] w in
  sent w' = sent w
  /\ errorModal (view w') = ErrorModalObj true "Please fill in all fields."
  /\ newTitle (view w') = VString "" /\ newNote (view w') = VString ""
  /\ tag (view w') = VString "" /\ editIndex (view w') = None
  /\ isModalOpen (view w') = true
  /\ notes (view w') = notes (view w).
Proof. simpl. auto 10. Qed.

(** ** Updating *)

(** X3: In edit mode, with a user and a draft that passes the gate,
    [addOrEditNote] sends one [updateDoc], for the document whose id is
    [notes[editIndex].id], with the draft and [edit = Date.now()]; it sets
    neither [notes] nor [filteredNotes], and closes the modal once the
    request is fulfilled. *)
Theorem addOrEditNote_updates_edited `{U : Unicode}
    (w : world) (now i : Z) (note : obj) (u : User) (t b : jsstring) :
  editIndex (view w) = Some i ->
  Js.index (notes (view w)) i = Some note ->
  user (view w) = Some u ->
  newTitle (view w) = VString t -> ~ Spec.whitespaceOnly t ->
  newNote (view w) = VString b -> ~ Spec.whitespaceOnly b ->
  Js.toBoolean (lastEdited (view w)) = true ->
  let req :=
    UpdateDoc (doc [VString "users"; VString (uid u); VString "notes"; Js.get note "id"])
      {| NoteData.title := VString t; NoteData.text := VString b;
         NoteData.edit := VNumber now; NoteData.tag := tag (view w) |} in
  forall accepts,
    let w' := dispatch accepts (Handle h_addOrEditNote now) w in
    sent w' = sent w ++ [ req ]
    /\ notes (view w') = notes (view w)
    /\ filteredNotes (view w') = filteredNotes (view w)
    /\ (accepts req = true ->
        isAnimating (view w') = false
        /\ timers w' = timers w ++ [ (700, setIsModalOpen false) ]).
Proof.
  intros Hidx Hnote Hu Ht Hwt Hb Hwb Hl req accepts.
  pose proof (addOrEditNote_updates (view w) now i note u t b
                Hidx Hnote Hu Ht Hwt Hb Hwb Hl) as Hres.
  simpl. rewrite Hres. simpl. fold req.
  destruct (accepts req); simpl.
  - auto.
  - repeat split; auto; discriminate.
Qed.

Lemma addOrEditNote_updates_edited_witness :
  let req :=
    UpdateDoc (doc [VString "users"; VString "alice"; VString "notes"; VString "1"])
      {| NoteData.title := VString "Groceries"; NoteData.text := VString "<p>milk</p>";
         NoteData.edit := VNumber 6100; NoteData.tag := VString "Personal" |} in
  let w' := dispatch Sample.accepting (Handle h_addOrEditNote 6100) Sample.editing in
  sent w' = sent Sample.editing ++ [ req ]
  /\ notes (view w') = notes (view Sample.editing)
  /\ filteredNotes (view w') = filteredNotes (view Sample.editing)
  /\ (Sample.accepting req = true ->
      isAnimating (view w') = false
      /\ timers w' = timers Sample.editing ++ [ (700, setIsModalOpen false) ]).
Proof.
  apply (addOrEditNote_updates_edited Sample.editing 6100 0
           (noteOfDoc Sample.groceries) Sample.alice "Groceries" "<p>milk</p>").
  - reflexivity.
  - reflexivity.
  - reflexivity.
  - reflexivity.
  - not_blank.
  - reflexivity.
  - not_blank.
  - reflexivity.
Defined.

(** ** A stale [editIndex] *)

(** X4: With [editIndex] no longer an index of [notes] (a snapshot has
    shortened the list while the modal was open) and a user, [deleteNote]
    throws, and so does [addOrEditNote] on a draft that passes the gate:
    nothing is sent and nothing changes, the modal stays open. *)
Theorem stale_editIndex_throws `{U : Unicode}
    (accepts : request -> bool) (w : world) (i now : Z) (u : User) :
  editIndex (view w) = Some i ->
  i < 0 \/ Z.of_nat (length (notes (view w))) <= i ->
  user (view w) = Some u ->
  deleteNote (view w) = Throw TypeError
  /\ dispatch accepts (Handle h_deleteNote now) w = w
  /\ (allFieldsFilled (view w) = Ok true ->
      addOrEditNote (view w) now = Throw TypeError
      /\ dispatch accepts (Handle h_addOrEditNote now) w = w).
Proof.
  intros Hidx Hout Hu. apply index_None in Hout.
  assert (deleteNote (view w) = Throw TypeError) as Hdel.
  { unfold deleteNote. now rewrite Hidx, Hu, Hout. }
  split; [exact Hdel|]. split.
  { cbn [dispatch call]. now rewrite Hdel. }
  intros Hgate.
  assert (addOrEditNote (view w) now = Throw TypeError) as Hres.
  { unfold addOrEditNote. now rewrite Hgate, Hu, Hidx, Hout. }
  split; [exact Hres|]. cbn [dispatch call]. now rewrite Hres.
Qed.

Lemma stale_editIndex_throws_witness :
  deleteNote (view Scenario.shrunk) = Throw TypeError
  /\ dispatch Sample.accepting (Handle h_deleteNote 6200) Scenario.shrunk = Scenario.shrunk
  /\ (allFieldsFilled (view Scenario.shrunk) = Ok true ->
      addOrEditNote (view Scenario.shrunk) 6200 = Throw TypeError
      /\ dispatch Sample.accepting (Handle h_addOrEditNote 6200) Scenario.shrunk
         = Scenario.shrunk).
Proof.
  apply (stale_editIndex_throws Sample.accepting Scenario.shrunk 1 6200 Sample.alice).
  - reflexivity.
  - right. simpl. lia.
  - reflexivity.
Defined.

(** The world after [openModal(i)] on an index of [notes]. *)
Lemma dispatch_openModal_edit `{U : Unicode}
    (accepts : request -> bool) (w : world) (i now : Z) (note : obj) :
  Js.index (notes (view w)) i = Some note ->
  dispatch accepts (Handle (h_openModal (Some i)) now) w
  = {| view :=
         {| notes := notes (view w);
            newNote := Js.or (Js.get note "text") (VString "");
            newTitle := Js.get note "title";
            lastEdited := Js.or (Js.get note "edit") (VNumber now);
            tag := Js.get note "tag";
            searchQuery := searchQuery (view w);
            filteredNotes := filteredNotes (view w);
            isModalOpen := true;
            isAnimating := isAnimating (view w);
            editIndex := Some i;
            loading := loading (view w);
            errorModal := errorModal (view w);
            user := user (view w) |};
       sent := sent w;
       timers := timers w ++ [ (0, setIsAnimating true) ];
       console := console w;
       subscription := subscription w |}.
Proof.
  intros Hnote. cbn [dispatch call]. unfold openModal. rewrite Hnote. reflexivity.
Qed.

(** X5: The modal is opened on index [i], a snapshot arrives, and the draft is
    submitted or the note deleted: the request goes to the document that is
    at index [i] of the new list, while the draft is still the one taken
    from the note that was at index [i] when the modal was opened. *)
Theorem write_after_snapshot_follows_index `{U : Unicode}
    (w : world) (q : query) (i now1 now2 : Z) (opened current : obj) (u : User)
    (t b : jsstring) (docs : list document) :
  subscription w = Some q ->
  user (view w) = Some u ->
  Js.index (notes (view w)) i = Some opened ->
  Js.get opened "title" = VString t -> ~ Spec.whitespaceOnly t ->
  Js.get opened "text" = VString b -> ~ Spec.whitespaceOnly b ->
  now1 <> 0 ->
  Js.index (map noteOfDoc docs) i = Some current ->
  forall accepts,
    sent (run accepts [ Handle (h_openModal (Some i)) now1; Snapshot docs;
                        Handle h_addOrEditNote now2 ] w)
    = sent w
      ++ [ UpdateDoc
             (doc [VString "users"; VString (uid u); VString "notes";
                   Js.get current "id"])
             {| NoteData.title := VString t; NoteData.text := VString b;
                NoteData.edit := VNumber now2; NoteData.tag := Js.get opened "tag" |} ]
    /\ sent (run accepts [ Handle (h_openModal (Some i)) now1; Snapshot docs;
                           Handle h_deleteNote now2 ] w)
       = sent w
         ++ [ DeleteDoc
                (doc [VString "users"; VString (uid u); VString "notes";
                      Js.get current "id"]) ].
Proof.
  intros Hsub Hu Hopened Ht Hwt Hb Hwb Hnow Hcurrent accepts.
  unfold run. cbn [foldl].
  rewrite (dispatch_openModal_edit accepts w i now1 opened Hopened).
  cbn [dispatch subscription]. rewrite Hsub.
  cbn [exec onNext withView applySetter view sent timers console subscription
       notes newNote newTitle lastEdited tag searchQuery filteredNotes isModalOpen
       isAnimating editIndex loading errorModal user].
  match goal with |- context [call h_addOrEditNote ?s now2] => set (s2 := s) end.
  assert (Js.toBoolean (Js.or (Js.get opened "edit") (VNumber now1)) = true) as Hl.
  { apply or_truthy_r. simpl.
    destruct (now1 =? 0) eqn:E; [|reflexivity]. apply Z.eqb_eq in E. contradiction. }
  assert (Js.or (Js.get opened "text") (VString "") = VString b) as Htext.
  { rewrite or_truthy_l; [exact Hb|]. rewrite Hb. now apply toBoolean_nonblank. }
  split.
  - pose proof (addOrEditNote_updates s2 now2 i current u t b) as Hres.
    cbn [call]. rewrite Hres; subst s2; simpl; auto.
    destruct (accepts _); reflexivity.
  - cbn [call]. unfold deleteNote. subst s2. simpl.
    rewrite Hu, Hcurrent. simpl. destruct (accepts _); reflexivity.
Qed.

(** A note is added elsewhere while the groceries note is open: the new
    note takes index 0, and the update made of the groceries draft goes to
    it. *)
Lemma write_after_snapshot_follows_index_witness :
  sent (run Sample.accepting
          [ Handle (h_openModal (Some 0)) 6000;
            Snapshot [ Sample.minutes; Sample.groceries ];
            Handle h_addOrEditNote 6500 ] Sample.loaded)
  = sent Sample.loaded
    ++ [ UpdateDoc
           (doc [VString "users"; VString "alice"; VString "notes"; VString "2"])
           {| NoteData.title := VString "Groceries";
              NoteData.text := VString "<p>milk</p>";
              NoteData.edit := VNumber 6500; NoteData.tag := VString "Personal" |} ]
  /\ sent (run Sample.accepting
             [ Handle (h_openModal (Some 0)) 6000;
               Snapshot [ Sample.minutes; Sample.groceries ];
               Handle h_deleteNote 6500 ] Sample.loaded)
     = sent Sample.loaded
       ++ [ DeleteDoc
              (doc [VString "users"; VString "alice"; VString "notes"; VString "2"]) ].
Proof.
  apply (write_after_snapshot_follows_index Sample.loaded
           {| q_collection := [VString "users"; VString "alice"; VString "notes"];
              q_orderBy := ("edit", desc) |}
           0 6000 6500 (noteOfDoc Sample.groceries) (noteOfDoc Sample.minutes)
           Sample.alice "Groceries" "<p>milk</p>"
           [ Sample.minutes; Sample.groceries ]).
  - reflexivity.
  - reflexivity.
  - reflexivity.
  - reflexivity.
  - not_blank.
  - reflexivity.
  - not_blank.
  - lia.
  - reflexivity.
Defined.

(** ** The requests of the page *)

(** A handler sends at most one request, first of all, and if it does, the
    rest of it is [closeModal]. *)
Lemma call_request_shape `{U : Unicode}
    (h : handler) (s : state) (now : Z) (acts : list action) :
  call h s now = Ok acts ->
  requestsOf acts = [] \/ exists r, acts = Await r :: closeModal.
Proof.
  destruct h; simpl; try (intros H; injection H as <-; now left).
  - unfold openModal. destruct index as [i|].
    + destruct (Js.index (notes s) i); [|discriminate].
      intros H; injection H as <-; now left.
    + intros H; injection H as <-; now left.
  - unfold addOrEditNote.
    destruct (allFieldsFilled s) as [filled|err]; simpl; [|discriminate].
    destruct filled, (user s) as [u|]; try (intros H; injection H as <-; now left).
    destruct (editIndex s) as [i|].
    + destruct (Js.getOf (Js.index (notes s) i) "id") as [id|err]; simpl;
        [|discriminate].
      intros H; injection H as <-. right. eauto.
    + intros H; injection H as <-. right. eauto.
  - unfold deleteNote. destruct (editIndex s) as [i|], (user s) as [u|];
      try (intros H; injection H as <-; now left).
    destruct (Js.getOf (Js.index (notes s) i) "id") as [id|err]; simpl;
      [|discriminate].
    intros H; injection H as <-. right. eauto.
  - unfold handleSearch. destruct (JsString.isEmpty (searchQuery s)).
    + intros H; injection H as <-; now left.
    + destruct (Js.filter _ _); simpl; [|discriminate].
      intros H; injection H as <-; now left.
Qed.

(** X6: When the store rejects the request of a handler, the page does nothing
    more: the request has been sent, and the state is as before, with the
    modal still open, the draft kept and no error shown. *)
Theorem rejected_write_changes_nothing `{U : Unicode}
    (accepts : request -> bool) (h : handler) (now : Z) (w : world)
    (acts : list action) (r : request) :
  call h (view w) now = Ok acts ->
  r ∈ requestsOf acts ->
  accepts r = false ->
  dispatch accepts (Handle h now) w
  = {| view := view w; sent := sent w ++ [ r ]; timers := timers w;
       console := console w; subscription := subscription w |}.
Proof.
  intros Hcall Hr Hrej. cbn [dispatch]. rewrite Hcall.
  destruct (call_request_shape h (view w) now acts Hcall) as [Hnone | [r' ->]].
  - rewrite Hnone in Hr. now apply elem_of_nil in Hr.
  - simpl in Hr. apply list_elem_of_singleton in Hr. subst r'.
    simpl. now rewrite Hrej.
Qed.

Lemma rejected_write_changes_nothing_witness :
  let r :=
    AddDoc (collection [VString "users"; VString "alice"; VString "notes"])
      {| NoteData.title := VString "Trip"; NoteData.text := VString "<p>pack</p>";
         NoteData.edit := VNumber 5010; NoteData.tag := VString "Work" |} in
  dispatch Scenario.rejecting (Handle h_addOrEditNote 5010) Sample.tripDraft
  = {| view := view Sample.tripDraft; sent := sent Sample.tripDraft ++ [ r ];
       timers := timers Sample.tripDraft; console := console Sample.tripDraft;
       subscription := subscription Sample.tripDraft |}.
Proof.
  intros r.
  apply (rejected_write_changes_nothing Scenario.rejecting h_addOrEditNote 5010
           Sample.tripDraft (Await r :: closeModal) r).
  - reflexivity.
  - simpl. apply list_elem_of_here.
  - reflexivity.
Defined.

(** X7: Every request of every handler stays with the user's own notes: it
    needs a user, [addDoc] is sent for the collection the page subscribes
    to for that user, and [updateDoc] and [deleteDoc] for the document in
    that collection named by the [id] of [notes[editIndex]]. *)
Theorem requests_stay_in_own_collection `{U : Unicode}
    (h : handler) (s : state) (now : Z) (acts : list action) (r : request) :
  call h s now = Ok acts ->
  r ∈ requestsOf acts ->
  exists u q,
    user s = Some u
    /\ notesEffect (user s) = Some q
    /\ q_collection q = [VString "users"; VString (uid u); VString "notes"]
    /\ match r with
       | AddDoc ref _ => editIndex s = None /\ ref = q_collection q
       | UpdateDoc ref _ | DeleteDoc ref =>
           exists i note,
             editIndex s = Some i /\ Js.index (notes s) i = Some note
             /\ ref = q_collection q ++ [ Js.get note "id" ]
       end.
Proof.
  intros Hcall Hr.
  assert (forall acts', acts = acts' -> requestsOf acts' = [] -> False) as Hnil.
  { intros acts' <- E. rewrite E in Hr. now apply elem_of_nil in Hr. }
  destruct h; simpl in Hcall;
    try (injection Hcall as Hcall; exfalso; now apply (Hnil _ (eq_sym Hcall))).
  - exfalso. unfold openModal in Hcall. destruct index as [i|].
    + destruct (Js.index (notes s) i); [|discriminate].
      injection Hcall as Hcall. now apply (Hnil _ (eq_sym Hcall)).
    + injection Hcall as Hcall. now apply (Hnil _ (eq_sym Hcall)).
  - unfold addOrEditNote in Hcall.
    destruct (allFieldsFilled s) as [filled|err]; simpl in Hcall; [|discriminate].
    destruct filled, (user s) as [u|];
      try (injection Hcall as Hcall; exfalso; now apply (Hnil _ (eq_sym Hcall))).
    exists u, {| q_collection := [VString "users"; VString (uid u); VString "notes"];
                 q_orderBy := ("edit", desc) |}.
    do 3 (split; [reflexivity|]).
    destruct (editIndex s) as [i|].
    + destruct (Js.index (notes s) i) as [note|] eqn:Hnote; simpl in Hcall;
        [|discriminate].
      injection Hcall as <-. simpl in Hr. apply list_elem_of_singleton in Hr. subst r.
      exists i, note. auto.
    + injection Hcall as <-. simpl in Hr. apply list_elem_of_singleton in Hr. subst r.
      auto.
  - unfold deleteNote in Hcall.
    destruct (editIndex s) as [i|], (user s) as [u|];
      try (injection Hcall as Hcall; exfalso; now apply (Hnil _ (eq_sym Hcall))).
    exists u, {| q_collection := [VString "users"; VString (uid u); VString "notes"];
                 q_orderBy := ("edit", desc) |}.
    do 3 (split; [reflexivity|]).
    destruct (Js.index (notes s) i) as [note|] eqn:Hnote; simpl in Hcall;
      [|discriminate].
    injection Hcall as <-. simpl in Hr. apply list_elem_of_singleton in Hr. subst r.
    exists i, note. auto.
  - exfalso. unfold handleSearch in Hcall. destruct (JsString.isEmpty (searchQuery s)).
    + injection Hcall as Hcall. now apply (Hnil _ (eq_sym Hcall)).
    + destruct (Js.filter _ _); simpl in Hcall; [|discriminate].
      injection Hcall as Hcall. now apply (Hnil _ (eq_sym Hcall)).
Qed.

Lemma requests_stay_in_own_collection_witness :
  exists u q,
    user (view Sample.editing) = Some u
    /\ notesEffect (user (view Sample.editing)) = Some q
    /\ q_collection q = [VString "users"; VString (uid u); VString "notes"]
    /\ exists i note,
         editIndex (view Sample.editing) = Some i
         /\ Js.index (notes (view Sample.editing)) i = Some note
         /\ doc [VString "users"; VString "alice"; VString "notes"; VString "1"]
            = q_collection q ++ [ Js.get note "id" ].
Proof.
  apply (requests_stay_in_own_collection h_deleteNote (view Sample.editing) 6100
           (Await (DeleteDoc (doc [VString "users"; VString "alice"; VString "notes";
                                   VString "1"])) :: closeModal)
           (DeleteDoc (doc [VString "users"; VString "alice"; VString "notes";
                            VString "1"]))).
  - reflexivity.
  - simpl. apply list_elem_of_here.
Defined.

(** Only [addOrEditNote] and [deleteNote] send requests, the latter only
    [deleteDoc]. *)
Lemma request_sender `{U : Unicode}
    (h : handler) (s : state) (now : Z) (acts : list action) (r : request) :
  call h s now = Ok acts ->
  r ∈ requestsOf acts ->
  h = h_addOrEditNote \/ (h = h_deleteNote /\ exists ref, r = DeleteDoc ref).
Proof.
  intros Hcall Hr.
  destruct (call_request_shape h s now acts Hcall) as [Hnone | [r' ->]].
  { rewrite Hnone in Hr. now apply elem_of_nil in Hr. }
  simpl in Hr. apply list_elem_of_singleton in Hr. subst r'.
  destruct h; simpl in Hcall; try discriminate; auto.
  - unfold openModal in Hcall. destruct index as [i|]; [|discriminate].
    destruct (Js.index (notes s) i); discriminate.
  - right. split; [reflexivity|]. unfold deleteNote in Hcall.
    destruct (editIndex s) as [i|], (user s) as [u|]; try discriminate.
    destruct (Js.getOf (Js.index (notes s) i) "id"); simpl in Hcall; [|discriminate].
    injection Hcall as <-. eauto.
  - unfold handleSearch in Hcall. destruct (JsString.isEmpty (searchQuery s));
      [discriminate|].
    destruct (Js.filter _ _); discriminate.
Qed.

(** X8: Whatever the state and the handler, a note the page writes has a string
    that is not blank as title and as text, and the clock reading of the
    call as [edit]; the only other request is the [deleteDoc] of
    [deleteNote]. *)
Theorem written_notes_never_blank `{U : Unicode}
    (h : handler) (s : state) (now : Z) (acts : list action) (r : request) :
  call h s now = Ok acts ->
  r ∈ requestsOf acts ->
  match r with
  | AddDoc _ data | UpdateDoc _ data =>
      h = h_addOrEditNote
      /\ exists t b,
           NoteData.title data = VString t /\ ~ Spec.whitespaceOnly t
           /\ NoteData.text data = VString b /\ ~ Spec.whitespaceOnly b
           /\ NoteData.edit data = VNumber now
  | DeleteDoc _ => h = h_deleteNote
  end.
Proof.
  intros Hcall Hr.
  destruct (request_sender h s now acts r Hcall Hr) as [-> | [-> [ref ->]]].
  - simpl in Hcall.
    destruct (addOrEditNote_writes_wellformed s now acts r Hcall Hr)
      as (ref & data & t & b & [-> | ->] & H); split; eauto.
  - reflexivity.
Qed.

Lemma written_notes_never_blank_witness :
  h_addOrEditNote = h_addOrEditNote
  /\ exists t b,
       VString "Trip" = VString t /\ ~ Spec.whitespaceOnly t
       /\ VString "<p>pack</p>" = VString b /\ ~ Spec.whitespaceOnly b
       /\ VNumber 5010 = VNumber 5010.
Proof.
  apply (written_notes_never_blank h_addOrEditNote (view Sample.tripDraft) 5010
           (Await (AddDoc (collection [VString "users"; VString "alice"; VString "notes"])
                     {| NoteData.title := VString "Trip";
                        NoteData.text := VString "<p>pack</p>";
                        NoteData.edit := VNumber 5010;
                        NoteData.tag := VString "Work" |}) :: closeModal)
           (AddDoc (collection [VString "users"; VString "alice"; VString "notes"])
              {| NoteData.title := VString "Trip";
                 NoteData.text := VString "<p>pack</p>";
                 NoteData.edit := VNumber 5010;
                 NoteData.tag := VString "Work" |})).
  - reflexivity.
  - simpl. apply list_elem_of_here.
Defined.

(** ** What the handlers leave alone *)

Lemma exec_keepsNotes (accepts : request -> bool) (acts : list action) (w : world) :
  Forall keepsNotes acts ->
  let w' := exec accepts acts w in
  notes (view w') = notes (view w) /\ loading (view w') = loading (view w)
  /\ user (view w') = user (view w) /\ subscription w' = subscription w.
Proof.
  intros H. revert w. induction H as [|a acts Ha _ IH]; intros w; [simpl; auto|].
  destruct a as [u|r|cb delay|m e]; cbn [exec].
  - destruct (IH (withView (applySetter u) w)) as (H1 & H2 & H3 & H4).
    cbv zeta in *. rewrite H1, H2, H3, H4.
    destruct u; simpl in *; try contradiction; auto.
  - destruct (accepts r); [|simpl; auto].
    match goal with |- context [exec accepts acts ?w0] => pose proof (IH w0) as H end.
    exact H.
  - match goal with |- context [exec accepts acts ?w0] => pose proof (IH w0) as H end.
    exact H.
  - match goal with |- context [exec accepts acts ?w0] => pose proof (IH w0) as H end.
    exact H.
Qed.

Lemma call_keepsNotes `{U : Unicode}
    (h : handler) (s : state) (now : Z) (acts : list action) :
  call h s now = Ok acts -> Forall keepsNotes acts.
Proof.
  destruct h; simpl; try (intros H; injection H as <-; now repeat constructor).
  - unfold openModal. destruct index as [i|].
    + destruct (Js.index (notes s) i); [|discriminate].
      intros H; injection H as <-; now repeat constructor.
    + intros H; injection H as <-; now repeat constructor.
  - unfold addOrEditNote.
    destruct (allFieldsFilled s) as [filled|err]; simpl; [|discriminate].
    destruct filled, (user s) as [u|];
      try (intros H; injection H as <-; now repeat constructor).
    destruct (editIndex s) as [i|].
    + destruct (Js.getOf (Js.index (notes s) i) "id") as [id|err]; simpl;
        [|discriminate].
      intros H; injection H as <-; now repeat constructor.
    + intros H; injection H as <-; now repeat constructor.
  - unfold deleteNote. destruct (editIndex s) as [i|], (user s) as [u|];
      try (intros H; injection H as <-; now repeat constructor).
    destruct (Js.getOf (Js.index (notes s) i) "id") as [id|err]; simpl;
      [|discriminate].
    intros H; injection H as <-; now repeat constructor.
  - unfold handleSearch. destruct (JsString.isEmpty (searchQuery s)).
    + intros H; injection H as <-; now repeat constructor.
    + destruct (Js.filter _ _); simpl; [|discriminate].
      intros H; injection H as <-; now repeat constructor.
Qed.

(** X9: No handler of the page touches the mirrored list: whatever is clicked
    or typed, [notes], [loading], the user and the subscription are after
    the handler what they were before; [notes] changes by snapshots
    only. *)
Theorem handlers_keep_notes `{U : Unicode}
    (accepts : request -> bool) (h : handler) (now : Z) (w : world) :
  let w' := dispatch accepts (Handle h now) w in
  notes (view w') = notes (view w) /\ loading (view w') = loading (view w)
  /\ user (view w') = user (view w) /\ subscription w' = subscription w.
Proof.
  cbn [dispatch]. destruct (call h (view w) now) as [acts|err] eqn:Hcall; [|auto].
  apply exec_keepsNotes. now apply (call_keepsNotes h (view w) now).
Qed.

(** ** A page without a user *)

Lemma exec_timers_modalOnly (accepts : request -> bool) (acts : list action) (w : world) :
  Forall keepsNotes acts ->
  Forall (fun t => modalOnly (snd t)) (timers w) ->
  Forall (fun t => modalOnly (snd t)) (timers (exec accepts acts w)).
Proof.
  intros H. revert w. induction H as [|a acts Ha _ IH]; intros w Hw; [exact Hw|].
  destruct a as [u|r|cb delay|m e]; cbn [exec].
  - apply IH. exact Hw.
  - destruct (accepts r); [apply IH|]; exact Hw.
  - apply IH. cbn [timers]. apply Forall_app. split; [exact Hw|].
    constructor; [exact Ha | constructor].
  - apply IH. exact Hw.
Qed.

Lemma applySetter_modalOnly (u : setter) (s : state) :
  modalOnly u ->
  notes (applySetter u s) = notes s /\ loading (applySetter u s) = loading s
  /\ user (applySetter u s) = user s.
Proof. destruct u; simpl; try contradiction; auto. Qed.

(** X10: A page mounted without a user shows the spinner for good: as long as
    no user signs in, whatever else happens, it stays loading, subscribes
    to nothing, holds no notes and sends nothing. *)
Theorem without_user_stays_loading `{U : Unicode}
    (accepts : request -> bool) (evs : list event) :
  Forall noSignIn evs ->
  let w := run accepts evs (mount None) in
  user (view w) = None /\ loading (view w) = true /\ subscription w = None
  /\ notes (view w) = [] /\ sent w = [].
Proof.
  intros Hevs.
  set (Inv := fun w : world =>
         (user (view w) = None /\ loading (view w) = true /\ subscription w = None
          /\ notes (view w) = [] /\ sent w = [])
         /\ Forall (fun t => modalOnly (snd t)) (timers w)).
  assert (forall w, Inv w -> Inv (run accepts evs w)) as Hrun.
  { unfold run. induction Hevs as [|ev evs Hev _ IH]; intros w Hw; [exact Hw|].
    cbn [foldl]. apply IH. clear IH.
    destruct Hw as [(Hu & Hl & Hs & Hn & Hsent) Ht].
    destruct ev as [h now|docs|e|k|u]; cbn [dispatch].
    - destruct (call h (view w) now) as [acts|err] eqn:Hcall;
        [|now repeat split].
      pose proof (call_keepsNotes h (view w) now acts Hcall) as Hkeep.
      destruct (exec_keepsNotes accepts acts w Hkeep) as (H1 & H2 & H3 & H4).
      pose proof (call_no_user h (view w) now Hu) as Hreq. rewrite Hcall in Hreq.
      split; [|now apply exec_timers_modalOnly].
      cbv zeta in *. rewrite H1, H2, H3, H4, (exec_sent_no_request _ _ _ Hreq). auto.
    - rewrite Hs. now repeat split.
    - rewrite Hs. now repeat split.
    - destruct (timers w !! k) as [[delay cb]|] eqn:Hk; [|now repeat split].
      assert (modalOnly cb) as Hcb.
      { rewrite Forall_forall in Ht. apply (Ht (delay, cb)).
        now apply list_elem_of_lookup_2 in Hk. }
      destruct (applySetter_modalOnly cb (view w) Hcb) as (H1 & H2 & H3).
      split.
      + cbn [view sent subscription]. rewrite H1, H2, H3. auto.
      + cbn [timers]. apply Forall_delete. exact Ht.
    - destruct u as [u|]; [destruct Hev|]. now repeat split. }
  apply Hrun. split; [simpl; auto 10 | constructor].
Qed.

Lemma without_user_stays_loading_witness :
  let w :=
    run Sample.accepting
      [ Handle (h_openModal None) 100; Handle (h_setNewTitle (VString "Trip")) 200;
        Handle (h_setNewNote (VString "<p>pack</p>")) 300; Handle h_addOrEditNote 400;
        TimerFires 0; Snapshot [ Sample.groceries ]; AuthState None ] (mount None) in
  user (view w) = None /\ loading (view w) = true /\ subscription w = None
  /\ notes (view w) = [] /\ sent w = [].
Proof.
  apply (without_user_stays_loading Sample.accepting).
  repeat constructor.
Defined.

(** ** Closing and opening the modal *)

(** X11: [closeModal] takes the modal down by a timer of 700 ms that is never
    cancelled: when the modal is opened again before that timer fires, it
    is open with both timers pending; once the timer of the opening and
    then the old timer have fired, the modal is closed although its
    animation flag is set, and the draft and [editIndex] of the new opening
    stay. *)
Theorem reopened_modal_closed_by_old_timer `{U : Unicode}
    (accepts : request -> bool) (w : world) (index : option Z) (now1 now2 : Z)
    (acts : list action) :
  openModal (view w) index now2 = Ok acts ->
  let w2 := run accepts [ Handle h_closeModal now1; Handle (h_openModal index) now2 ] w in
  let w3 :=
    run accepts [ TimerFires (S (length (timers w))); TimerFires (length (timers w)) ]
      w2 in
  isModalOpen (view w2) = true
  /\ timers w2 = timers w ++ [ (700, setIsModalOpen false); (0, setIsAnimating true) ]
  /\ isModalOpen (view w3) = false
  /\ isAnimating (view w3) = true
  /\ editIndex (view w3) = index
  /\ newTitle (view w3) = newTitle (view w2)
  /\ timers w3 = timers w.
Proof.
  intros Hopen. unfold run. cbn [foldl].
  cbn [dispatch call closeModal exec withView view].
  assert (forall s' : state, notes s' = notes (view w) ->
            openModal s' index now2 = Ok acts) as Hsame.
  { intros s' Hn. unfold openModal in *. now rewrite Hn. }
  match goal with |- context [openModal ?s' index now2] =>
    rewrite (Hsame s' eq_refl)
  end.
  unfold openModal in Hopen.
  set (pending := [ (700, setIsModalOpen false); (0, setIsAnimating true) ]).
  assert (lookup (S (length (timers w))) (timers w ++ pending)
          = Some (0, setIsAnimating true)) as Hk1.
  { rewrite lookup_app_r by lia.
    now replace (S (length (timers w)) - length (timers w))%nat with 1%nat by lia. }
  assert (delete (S (length (timers w))) (timers w ++ pending)
          = timers w ++ [ (700, setIsModalOpen false) ]) as Hd1.
  { change (timers w ++ pending)
      with (timers w ++ [ (700, setIsModalOpen false) ] ++ [ (0, setIsAnimating true) ]).
    rewrite app_assoc.
    replace (S (length (timers w)))
      with (length (timers w ++ [ (700, setIsModalOpen false) ]))
      by (rewrite length_app; simpl; lia).
    rewrite delete_middle. now rewrite app_nil_r. }
  assert (lookup (length (timers w)) (timers w ++ [ (700, setIsModalOpen false) ])
          = Some (700, setIsModalOpen false)) as Hk2.
  { now rewrite lookup_app_r, Nat.sub_diag by lia. }
  assert (delete (length (timers w)) (timers w ++ [ (700, setIsModalOpen false) ])
          = timers w) as Hd2.
  { rewrite delete_middle. now rewrite app_nil_r. }
  destruct index as [i|].
  - destruct (Js.index (notes (view w)) i) as [note|]; [|discriminate].
    injection Hopen as <-. simpl. rewrite <- !app_assoc. simpl. fold pending.
    rewrite Hk1, Hd1. simpl. rewrite Hk2, Hd2. simpl. auto 10.
  - injection Hopen as <-. simpl. rewrite <- !app_assoc. simpl. fold pending.
    rewrite Hk1, Hd1. simpl. rewrite Hk2, Hd2. simpl. auto 10.
Qed.

Lemma reopened_modal_closed_by_old_timer_witness :
  let w2 :=
    run Sample.accepting [ Handle h_closeModal 6100; Handle (h_openModal None) 6300 ]
      Sample.loaded in
  let w3 := run Sample.accepting [ TimerFires 1; TimerFires 0 ] w2 in
  isModalOpen (view w2) = true
  /\ timers w2 = [ (700, setIsModalOpen false); (0, setIsAnimating true) ]
  /\ isModalOpen (view w3) = false
  /\ isAnimating (view w3) = true
  /\ editIndex (view w3) = None
  /\ newTitle (view w3) = newTitle (view w2)
  /\ timers w3 = [].
Proof.
  apply (reopened_modal_closed_by_old_timer Sample.accepting Sample.loaded None 6100 6300
           [ Call (setNewTitle (VString "")); Call (setNewNote (VString ""));
             Call (setLastEdited (VNumber 6300)); Call (setTag (VString ""));
             Call (setEditIndex None); Call (setIsModalOpen true);
             SetTimeout (setIsAnimating true) 0 ]).
  reflexivity.
Defined.

(** ** The time stamp of the draft *)

(** X12: The gate tests [lastEdited] for truth, not for being defined: a draft
    with a fine title and body whose [lastEdited] is the empty string (its
    initial value) or 0 is refused like a blank one, in both modes. *)
Theorem falsy_lastEdited_rejected `{U : Unicode} (w : world) (now : Z) (t b : jsstring) :
  newTitle (view w) = VString t ->
  newNote (view w) = VString b ->
  Js.toBoolean (lastEdited (view w)) = false ->
  addOrEditNote (view w) now
  = Ok [ Call (setErrorModal (ErrorModalObj true "Please fill in all fields.")) ]
  /\ forall accepts,
       sent (dispatch accepts (Handle h_addOrEditNote now) w) = sent w.
Proof.
  intros Ht Hb Hl.
  assert (allFieldsFilled (view w) = Ok false) as Hgate.
  { unfold allFieldsFilled. rewrite Ht, Hb, Hl. simpl.
    destruct (JsString.isEmpty (JsString.trim t)); [reflexivity|].
    destruct (JsString.isEmpty (JsString.trim b)); reflexivity. }
  assert (addOrEditNote (view w) now
          = Ok [ Call (setErrorModal (ErrorModalObj true "Please fill in all fields.")) ])
    as Hres.
  { unfold addOrEditNote. now rewrite Hgate. }
  split; [exact Hres|]. intros accepts. cbn [dispatch call]. now rewrite Hres.
Qed.

Lemma falsy_lastEdited_rejected_witness :
  let w := dispatch Sample.accepting (Handle (h_setLastEdited (VNumber 0)) 5005)
             Sample.tripDraft in
  addOrEditNote (view w) 5010
  = Ok [ Call (setErrorModal (ErrorModalObj true "Please fill in all fields.")) ]
  /\ forall accepts,
       sent (dispatch accepts (Handle h_addOrEditNote 5010) w) = sent w.
Proof.
  apply (falsy_lastEdited_rejected
           (dispatch Sample.accepting (Handle (h_setLastEdited (VNumber 0)) 5005)
              Sample.tripDraft) 5010 "Trip" "<p>pack</p>"); reflexivity.
Defined.

(** ** From a written note back to the draft *)

(** The data of the requests of [addOrEditNote] is the draft with the clock
    reading. *)
Lemma addOrEditNote_data
    (s : state) (now : Z) (acts : list action) (ref : path) (data : NoteData.t) :
  addOrEditNote s now = Ok acts ->
  AddDoc ref data ∈ requestsOf acts \/ UpdateDoc ref data ∈ requestsOf acts ->
  data = {| NoteData.title := newTitle s; NoteData.text := newNote s;
            NoteData.edit := VNumber now; NoteData.tag := tag s |}.
Proof.
  unfold addOrEditNote.
  destruct (allFieldsFilled s) as [filled|err]; simpl; [|discriminate].
  assert (forall r : request, r ∈ @nil request -> False) as Hnil
    by (intros r Hr; now apply elem_of_nil in Hr).
  destruct filled, (user s) as [u|];
    try (intros H; injection H as <-; simpl; intros [Hr|Hr]; now apply Hnil in Hr).
  destruct (editIndex s) as [i|].
  - destruct (Js.getOf (Js.index (notes s) i) "id") as [id|err]; simpl; [|discriminate].
    intros H; injection H as <-. simpl.
    intros [Hr|Hr]; apply list_elem_of_singleton in Hr; congruence.
  - intros H; injection H as <-. simpl.
    intros [Hr|Hr]; apply list_elem_of_singleton in Hr; congruence.
Qed.

(** X13: A document that holds what [addOrEditNote] has written comes back, in
    any snapshot and at any index, as a note on which [openModal] restores
    the very draft that was submitted, with the time of the submission as
    [lastEdited]; the note carries the id of the document. *)
Theorem written_note_reopens_as_draft
    (s : state) (now : Z) (acts : list action) (ref : path) (data : NoteData.t)
    (id : jsstring) (s' : state) (i now' : Z) :
  addOrEditNote s now = Ok acts ->
  AddDoc ref data ∈ requestsOf acts \/ UpdateDoc ref data ∈ requestsOf acts ->
  now <> 0 ->
  let note := noteOfDoc {| doc_id := id; doc_data := noteDataObj data |} in
  Js.index (notes s') i = Some note ->
  Js.get note "id" = VString id
  /\ openModal s' (Some i) now'
     = Ok [ Call (setNewTitle (newTitle s));
            Call (setNewNote (newNote s));
            Call (setLastEdited (VNumber now));
            Call (setTag (tag s));
            Call (setEditIndex (Some i));
            Call (setIsModalOpen true);
            SetTimeout (setIsAnimating true) 0 ].
Proof.
  intros Hres Hr Hnow note Hnote.
  pose proof (addOrEditNote_data s now acts ref data Hres Hr) as Hdata.
  assert (exists r, r ∈ requestsOf acts /\ (r = AddDoc ref data \/ r = UpdateDoc ref data))
    as (r & Hin & Hshape) by (destruct Hr; eauto).
  destruct (addOrEditNote_writes_wellformed s now acts r Hres Hin)
    as (ref' & data' & t & b & Hr' & Ht & Hwt & Hb & Hwb & _).
  assert (data' = data) as -> by (destruct Hshape, Hr'; congruence).
  assert (Js.get note "id" = VString id) as Hid.
  { unfold note. rewrite noteOfDoc_id. reflexivity. }
  assert (forall k, k <> "id" -> Js.get note k = Js.get (noteDataObj data) k) as Hfield.
  { intros k Hk. unfold Js.get, note. now rewrite noteOfDoc_field. }
  split; [exact Hid|].
  unfold openModal. rewrite Hnote.
  rewrite !Hfield by discriminate.
  change (Js.get (noteDataObj data) "title") with (NoteData.title data).
  change (Js.get (noteDataObj data) "text") with (NoteData.text data).
  change (Js.get (noteDataObj data) "edit") with (NoteData.edit data).
  change (Js.get (noteDataObj data) "tag") with (NoteData.tag data).
  rewrite or_truthy_l by (rewrite Hb; now apply toBoolean_nonblank).
  rewrite or_truthy_l.
  - rewrite Hdata. reflexivity.
  - rewrite Hdata. simpl. destruct (now =? 0) eqn:E; [|reflexivity].
    apply Z.eqb_eq in E. contradiction.
Qed.

Lemma written_note_reopens_as_draft_witness :
  let data :=
    {| NoteData.title := VString "Trip"; NoteData.text := VString "<p>pack</p>";
       NoteData.edit := VNumber 5010; NoteData.tag := VString "Work" |} in
  let note := noteOfDoc {| doc_id := "3"; doc_data := noteDataObj data |} in
  let s' := applySetter (setNotes [ note; noteOfDoc Sample.groceries ])
              (view Sample.loaded) in
  Js.get note "id" = VString "3"
  /\ openModal s' (Some 0) 7000
     = Ok [ Call (setNewTitle (VString "Trip"));
            Call (setNewNote (VString "<p>pack</p>"));
            Call (setLastEdited (VNumber 5010));
            Call (setTag (VString "Work"));
            Call (setEditIndex (Some 0));
            Call (setIsModalOpen true);
            SetTimeout (setIsAnimating true) 0 ].
Proof.
  intros data note s'.
  apply (written_note_reopens_as_draft (view Sample.tripDraft) 5010
           (Await (AddDoc (collection [VString "users"; VString "alice"; VString "notes"])
                     data) :: closeModal)
           (collection [VString "users"; VString "alice"; VString "notes"]) data
           "3" s' 0 7000).
  - reflexivity.
  - left. simpl. apply list_elem_of_here.
  - lia.
  - reflexivity.
Defined.

(** ** The colours of a tag *)

(** X14: The border and the font of a note always have the same colour: red,
    blue and yellow for exactly the tags "Work", "School" and "Personal",
    and gray for every other value, a missing tag and a tag in another case
    included. *)
Theorem tag_colours_agree (tag : value) :
  exists colour,
    getBorderColor tag = "border-" +:+ colour +:+ "-500"
    /\ getFontColor tag = "text-" +:+ colour +:+ "-500"
    /\ (colour = "red" <-> tag = VString "Work")
    /\ (colour = "blue" <-> tag = VString "School")
    /\ (colour = "yellow" <-> tag = VString "Personal")
    /\ (colour = "gray"
        <-> tag <> VString "Work" /\ tag <> VString "School"
            /\ tag <> VString "Personal").
Proof.
  unfold getBorderColor, getFontColor, Js.strictEq.
  destruct (decide (tag = VString "Work")) as [->|H1].
  { exists "red". repeat split; try discriminate; try reflexivity; intros H; tauto. }
  rewrite (bool_decide_eq_false_2 _ H1).
  destruct (decide (tag = VString "School")) as [->|H2].
  { exists "blue". repeat split; try discriminate; try reflexivity; intros H; tauto. }
  rewrite (bool_decide_eq_false_2 _ H2).
  destruct (decide (tag = VString "Personal")) as [->|H3].
  { exists "yellow". repeat split; try discriminate; try reflexivity; intros H; tauto. }
  rewrite (bool_decide_eq_false_2 _ H3).
  exists "gray". repeat split; try discriminate; try assumption; try reflexivity;
    intros H; congruence.
Qed.

(** ** Clicking an item *)

Lemma index_of_nat {A} (l : list A) (i : nat) : Js.index l (Z.of_nat i) = l !! i.
Proof.
  unfold Js.index. destruct (Z.of_nat i <? 0) eqn:E.
  - apply Z.ltb_lt in E. lia.
  - now rewrite Nat2Z.id.
Qed.

(** [findIndex] returns -1 when no element passes the test, and otherwise
    the position of the first one that does. *)
Lemma findIndexFrom_spec {A} (p : A -> bool) (l : list A) (k : Z) :
  (Js.findIndexFrom p l k = -1 /\ Forall (fun x => p x = false) l)
  \/ exists n x,
       Js.findIndexFrom p l k = k + Z.of_nat n
       /\ l !! n = Some x /\ p x = true
       /\ forall m y, (m < n)%nat -> l !! m = Some y -> p y = false.
Proof.
  revert k. induction l as [|a l IH]; intros k; simpl.
  - left. split; [reflexivity | constructor].
  - destruct (p a) eqn:Ea.
    + right. exists 0%nat, a. repeat split; auto; [lia | intros m y Hm; lia].
    + destruct (IH (k + 1)) as [[Hn Hall] | (n & x & Hn & Hx & Hp & Hfirst)].
      * left. split; [exact Hn | now constructor].
      * right. exists (S n), x. repeat split; auto; [lia|].
        intros [|m] y Hm Hy; simpl in Hy; [congruence|].
        apply (Hfirst m y); [lia | exact Hy].
Qed.

Section ClickProperties.

Variable sanitize : value -> jsstring.
Variable toLocaleString : value -> jsstring.

(** X15: An item of the filtered list whose id is still among the notes opens
    the modal on the first note with that id: the click does not throw, and
    with ids that differ from note to note it opens the very note that is
    displayed. *)
Theorem filtered_item_opens_its_note (s : state) (note : obj) :
  note ∈ notes s ->
  exists i found,
    onClicks (renderFilteredNote sanitize toLocaleString s note)
    = [ h_openModal (Some i) ]
    /\ Js.index (notes s) i = Some found
    /\ Js.get found "id" = Js.get note "id"
    /\ (forall j other,
          0 <= j < i -> Js.index (notes s) j = Some other ->
          Js.get other "id" <> Js.get note "id")
    /\ (NoDup (map (fun n => Js.get n "id") (notes s)) -> found = note).
Proof.
  intros Hin.
  set (p := fun n : obj => Js.strictEq (Js.get n "id") (Js.get note "id")).
  destruct (findIndexFrom_spec p (notes s) 0)
    as [[_ Hall] | (n & x & Hn & Hx & Hp & Hfirst)].
  { exfalso. rewrite Forall_forall in Hall. specialize (Hall note Hin).
    unfold p, Js.strictEq in Hall. now rewrite bool_decide_eq_true_2 in Hall. }
  exists (Z.of_nat n), x.
  assert (Js.get x "id" = Js.get note "id") as Hid.
  { unfold p, Js.strictEq in Hp. now apply bool_decide_eq_true in Hp. }
  split; [|split; [|split; [|split]]].
  - simpl. unfold Js.findIndex. fold p. now rewrite Hn.
  - now rewrite index_of_nat.
  - exact Hid.
  - intros j other Hj Hother Heq.
    replace j with (Z.of_nat (Z.to_nat j)) in Hother by lia.
    rewrite index_of_nat in Hother.
    assert (p other = false) as Hfalse by (apply (Hfirst (Z.to_nat j)); [lia | exact Hother]).
    unfold p, Js.strictEq in Hfalse. now rewrite bool_decide_eq_true_2 in Hfalse.
  - intros Hnodup.
    apply list_elem_of_lookup in Hin as [m Hm].
    assert (n = m) as ->.
    { eapply NoDup_lookup; [exact Hnodup| |].
      - rewrite list_lookup_fmap, Hx. reflexivity.
      - rewrite list_lookup_fmap, Hm. simpl. now rewrite Hid. }
    congruence.
Qed.

(** X16: An item of the filtered list whose id is no longer among the notes
    (the filtered list is kept when a snapshot replaces the notes) calls
    [openModal(-1)]: the click throws and changes nothing. *)
Theorem stale_filtered_item_throws `{U : Unicode}
    (accepts : request -> bool) (w : world) (note : obj) (now : Z) :
  (forall n, n ∈ notes (view w) -> Js.get n "id" <> Js.get note "id") ->
  onClicks (renderFilteredNote sanitize toLocaleString (view w) note)
  = [ h_openModal (Some (-1)) ]
  /\ openModal (view w) (Some (-1)) now = Throw TypeError
  /\ dispatch accepts (Handle (h_openModal (Some (-1))) now) w = w.
Proof.
  intros Hnone.
  set (p := fun n : obj => Js.strictEq (Js.get n "id") (Js.get note "id")).
  assert (Js.findIndex p (notes (view w)) = -1) as Hidx.
  { destruct (findIndexFrom_spec p (notes (view w)) 0)
      as [[Hn _] | (n & x & _ & Hx & Hp & _)]; [exact Hn|].
    exfalso. apply (Hnone x); [now apply list_elem_of_lookup_2 in Hx|].
    unfold p, Js.strictEq in Hp. now apply bool_decide_eq_true in Hp. }
  assert (openModal (view w) (Some (-1)) now = Throw TypeError) as Hthrow.
  { reflexivity. }
  split; [|split; [exact Hthrow|]].
  - simpl. fold p. now rewrite Hidx.
  - cbn [dispatch call]. now rewrite Hthrow.
Qed.

Lemma onClicks_Element (name : string) (attrs : list attr) (children : list node) :
  onClicks (Element name attrs children)
  = omap onClickOf attrs ++ concat (map onClicks children).
Proof. reflexivity. Qed.

Lemma onClicks_indexed_items {A} (f : nat -> A -> node) (g : nat -> handler) (l : list A) :
  (forall i x, onClicks (f i x) = [ g i ]) ->
  concat (map onClicks (imap f l)) = imap (fun i _ => g i) l.
Proof.
  revert f g. induction l as [|x l IH]; intros f g H; [reflexivity|].
  simpl. rewrite H. simpl. f_equal.
  apply (IH (fun i => f (S i)) (fun i => g (S i))). intros i y. apply H.
Qed.

(** X17: The items of the full list are wired, in order, to [openModal] on their
    own position, which is an index of [notes]: a click on the item at
    position [i] does not throw and loads the title, text and tag of
    [notes[i]] into the draft. *)
Theorem list_items_open_their_note (s : state) :
  onClicks (renderList sanitize toLocaleString s)
  = imap (fun i _ => h_openModal (Some (Z.of_nat i))) (notes s)
  /\ forall i note now,
       notes s !! i = Some note ->
       openModal s (Some (Z.of_nat i)) now
       = Ok [ Call (setNewTitle (Js.get note "title"));
              Call (setNewNote (Js.or (Js.get note "text") (VString "")));
              Call (setLastEdited (Js.or (Js.get note "edit") (VNumber now)));
              Call (setTag (Js.get note "tag"));
              Call (setEditIndex (Some (Z.of_nat i)));
              Call (setIsModalOpen true);
              SetTimeout (setIsAnimating true) 0 ].
Proof.
  split.
  - unfold renderList. rewrite onClicks_Element. cbn [map concat].
    case_bool_decide as Hlen.
    + rewrite onClicks_Element.
      rewrite (onClicks_indexed_items _ (fun i => h_openModal (Some (Z.of_nat i))))
        by reflexivity.
      simpl. now rewrite app_nil_r.
    + destruct (notes s); [reflexivity | simpl in Hlen; lia].
  - intros i note now Hnote. unfold openModal. now rewrite index_of_nat, Hnote.
Qed.

End ClickProperties.

Lemma filtered_item_opens_its_note_witness :
  exists i found,
    onClicks (renderFilteredNote (fun _ => "") (fun _ => "") (view Scenario.searched)
                (noteOfDoc Sample.groceries))
    = [ h_openModal (Some i) ]
    /\ Js.index (notes (view Scenario.searched)) i = Some found
    /\ Js.get found "id" = Js.get (noteOfDoc Sample.groceries) "id"
    /\ (forall j other,
          0 <= j < i -> Js.index (notes (view Scenario.searched)) j = Some other ->
          Js.get other "id" <> Js.get (noteOfDoc Sample.groceries) "id")
    /\ (NoDup (map (fun n => Js.get n "id") (notes (view Scenario.searched))) ->
        found = noteOfDoc Sample.groceries).
Proof.
  apply (filtered_item_opens_its_note (fun _ => "") (fun _ => "")
           (view Scenario.searched) (noteOfDoc Sample.groceries)).
  simpl. apply list_elem_of_here.
Defined.

Lemma stale_filtered_item_throws_witness :
  filteredNotes (view Scenario.searchedStale) = [ noteOfDoc Sample.groceries ]
  /\ onClicks (renderFilteredNote (fun _ => "") (fun _ => "")
                 (view Scenario.searchedStale) (noteOfDoc Sample.groceries))
     = [ h_openModal (Some (-1)) ]
  /\ openModal (view Scenario.searchedStale) (Some (-1)) 7000 = Throw TypeError
  /\ dispatch Sample.accepting (Handle (h_openModal (Some (-1))) 7000)
       Scenario.searchedStale
     = Scenario.searchedStale.
Proof.
  split; [reflexivity|].
  apply (stale_filtered_item_throws (fun _ => "") (fun _ => "") Sample.accepting
           Scenario.searchedStale (noteOfDoc Sample.groceries) 7000).
  intros n Hn. simpl in Hn. apply list_elem_of_singleton in Hn. subst n.
  vm_compute. discriminate.
Defined.

(** ** More on the search *)

Lemma equalIgnoringCase_empty `{U : Unicode} (q q' : jsstring) :
  Spec.equalIgnoringCase q q' -> (q = [] <-> q' = []).
Proof. destruct 1; split; congruence. Qed.

Lemma Js_filter_ext {A} (p p' : A -> result bool) (l : list A) :
  (forall x, p x = p' x) -> Js.filter p l = Js.filter p' l.
Proof.
  intros E. induction l as [|x l IH]; [reflexivity|]. simpl. now rewrite E, IH.
Qed.

Lemma toLowerCase_equalIgnoringCase_latin1 `{U : Unicode} (q q' : jsstring) :
  JsString.lowercaseLatin1 -> JsString.isLatin1 q -> JsString.isLatin1 q' ->
  Spec.equalIgnoringCase q q' ->
  JsString.toLowerCase q = JsString.toLowerCase q'.
Proof.
  intros HL Hq Hq' Heq. rewrite !toLowerCase_latin1 by assumption.
  now apply map_lower_equalIgnoringCase.
Qed.

(** X18: for queries whose code units are below U+0100, the result of the
    search does not depend on the case of the query: two such queries that
    are equal up to case give the same list, or throw alike, whatever the
    titles are. *)
Theorem search_ignores_case_of_query `{U : Unicode} (notes : list obj) (q q' : jsstring) :
  JsString.lowercaseLatin1 ->
  JsString.isLatin1 q -> JsString.isLatin1 q' ->
  Spec.equalIgnoringCase q q' ->
  searchFilter notes q = searchFilter notes q'.
Proof.
  intros HL Hq Hq' Heq. unfold searchFilter.
  pose proof (equalIgnoringCase_empty q q' Heq) as Hempty.
  destruct (JsString.isEmpty q) eqn:E, (JsString.isEmpty q') eqn:E'; try reflexivity.
  - apply isEmpty_true in E. apply isEmpty_false in E'. tauto.
  - apply isEmpty_true in E'. apply isEmpty_false in E. tauto.
  - apply Js_filter_ext. intros note. unfold titleIncludes.
    now rewrite (toLowerCase_equalIgnoringCase_latin1 q q').
Qed.

Lemma search_ignores_case_of_query_witness :
  searchFilter (notes (view Sample.loaded)) "GROC"
  = searchFilter (notes (view Sample.loaded)) "groc".
Proof.
  apply search_ignores_case_of_query.
  - exact latinGreek_lowercaseLatin1.
  - unfold JsString.isLatin1. vm_compute. repeat constructor.
  - unfold JsString.isLatin1. vm_compute. repeat constructor.
  - apply map_lower_equalIgnoringCase.
    + exact latinGreek_lowercaseLatin1.
    + unfold JsString.isLatin1. vm_compute. repeat constructor.
    + unfold JsString.isLatin1. vm_compute. repeat constructor.
    + reflexivity.
Defined.

Lemma includes_trans (s m q : jsstring) :
  JsString.includes s m = true -> JsString.includes m q = true ->
  JsString.includes s q = true.
Proof.
  rewrite !includes_spec. intros (a & b & ->) (c & d & ->).
  exists (a ++ c), (d ++ b). now rewrite <- !app_assoc.
Qed.

Lemma includes_refl (s : jsstring) : JsString.includes s s = true.
Proof. apply includes_spec. exists [], []. now rewrite app_nil_r. Qed.

Lemma List_filter_sublist_impl {A} (f f' : A -> bool) (l : list A) :
  (forall x, f' x = true -> f x = true) ->
  sublist (List.filter f' l) (List.filter f l).
Proof.
  intros E. induction l as [|x l IH]; simpl; [constructor|].
  destruct (f' x) eqn:E'.
  - rewrite (E x E'). now constructor.
  - destruct (f x); [now constructor | exact IH].
Qed.

(** X19: for queries whose code units are below U+0100, extending the
    query narrows the result: when the query [q] occurs, up to case, in the
    longer query [q'], the notes found for [q'] are, in order, among those
    found for [q], whatever strings the titles are. *)
Theorem longer_query_narrows `{U : Unicode} (notes : list obj) (q q' : jsstring) :
  JsString.lowercaseLatin1 ->
  q <> [] ->
  JsString.isLatin1 q -> JsString.isLatin1 q' ->
  Spec.containsIgnoringCase q' q ->
  Forall hasStringTitle notes ->
  exists r r',
    searchFilter notes q = Ok r /\ searchFilter notes q' = Ok r'
    /\ sublist r' r /\ sublist r notes.
Proof.
  intros HL Hq Hlat Hlat' Hcontains Htitles.
  assert (q' <> []) as Hq'.
  { intros ->. destruct Hcontains as (pre & mid & post & Hsplit & Heq).
    destruct pre; [|discriminate]. destruct mid; [|discriminate].
    apply equalIgnoringCase_empty in Heq. tauto. }
  apply includes_toLowerCase_latin1 in Hcontains; try assumption.
  exists (List.filter (titleContainsb q) notes), (List.filter (titleContainsb q') notes).
  unfold searchFilter.
  apply isEmpty_false in Hq, Hq'. rewrite Hq, Hq'.
  split; [|split; [|split]].
  - apply Js_filter_Ok. eapply Forall_impl; [exact Htitles|].
    intros n. apply titleIncludes_string.
  - apply Js_filter_Ok. eapply Forall_impl; [exact Htitles|].
    intros n. apply titleIncludes_string.
  - apply List_filter_sublist_impl. intros n. unfold titleContainsb.
    destruct (Js.get n "title"); try discriminate.
    intros Hn. now apply (includes_trans _ (JsString.toLowerCase q')).
  - apply List_filter_sublist.
Qed.

Lemma longer_query_narrows_witness :
  exists r r',
    searchFilter (notes (view Scenario.twoNotes)) "e" = Ok r
    /\ searchFilter (notes (view Scenario.twoNotes)) "CER" = Ok r'
    /\ sublist r' r /\ sublist r (notes (view Scenario.twoNotes)).
Proof.
  apply longer_query_narrows.
  - exact latinGreek_lowercaseLatin1.
  - discriminate.
  - unfold JsString.isLatin1. vm_compute. repeat constructor.
  - unfold JsString.isLatin1. vm_compute. repeat constructor.
  - apply includes_toLowerCase_latin1.
    + exact latinGreek_lowercaseLatin1.
    + unfold JsString.isLatin1. vm_compute. repeat constructor.
    + unfold JsString.isLatin1. vm_compute. repeat constructor.
    + reflexivity.
  - repeat constructor; [now exists "Minutes" | now exists "Groceries"].
Defined.

(** X20: a query whose code units are below U+0100 and that is, up to
    case, the title of a note finds that note, whatever strings the other
    titles are. *)
Theorem title_as_query_finds_note `{U : Unicode}
    (notes : list obj) (note : obj) (t q : jsstring) :
  JsString.lowercaseLatin1 ->
  note ∈ notes ->
  Js.get note "title" = VString t ->
  JsString.isLatin1 t -> JsString.isLatin1 q ->
  Spec.equalIgnoringCase t q ->
  Forall hasStringTitle notes ->
  exists r, searchFilter notes q = Ok r /\ note ∈ r.
Proof.
  intros HL Hin Ht Hlat Hlatq Heq Htitles. unfold searchFilter.
  destruct (JsString.isEmpty q) eqn:E; [eauto|].
  exists (List.filter (titleContainsb q) notes). split.
  - apply Js_filter_Ok. eapply Forall_impl; [exact Htitles|].
    intros n. apply titleIncludes_string.
  - apply list_elem_of_In, filter_In. split; [now apply list_elem_of_In|].
    unfold titleContainsb. rewrite Ht.
    rewrite (toLowerCase_equalIgnoringCase_latin1 t q) by assumption.
    apply includes_refl.
Qed.

Lemma title_as_query_finds_note_witness :
  exists r,
    searchFilter (notes (view Scenario.twoNotes)) "GROCERIES" = Ok r
    /\ noteOfDoc Sample.groceries ∈ r.
Proof.
  apply (title_as_query_finds_note _ _ "Groceries").
  - exact latinGreek_lowercaseLatin1.
  - simpl. apply list_elem_of_further, list_elem_of_here.
  - reflexivity.
  - unfold JsString.isLatin1. vm_compute. repeat constructor.
  - unfold JsString.isLatin1. vm_compute. repeat constructor.
  - apply map_lower_equalIgnoringCase.
    + exact latinGreek_lowercaseLatin1.
    + unfold JsString.isLatin1. vm_compute. repeat constructor.
    + unfold JsString.isLatin1. vm_compute. repeat constructor.
    + reflexivity.
  - repeat constructor; [now exists "Minutes" | now exists "Groceries"].
Defined.

(** * Properties of the mobile container *)

Lemma MobileContainer_run_snoc (cs : list MobileContainer.click) (c : MobileContainer.click) :
  MobileContainer.run (cs ++ [ c ])
  = MobileContainer.step (MobileContainer.run cs) c.
Proof. unfold MobileContainer.run. now rewrite foldl_app. Qed.

Lemma MobileContainer_step_nav (s : MobileContainer.state) (c : MobileContainer.click) :
  1 <= MobileContainer.nav s <= 4 ->
  1 <= MobileContainer.nav (MobileContainer.step s c) <= 4.
Proof.
  intros H. destruct c as [| k | |]; try exact H.
  unfold MobileContainer.step, MobileContainer.handle.
  destruct k as [|[|[|[|k]]]]; simpl; lia.
Qed.

(** X21: Whatever is clicked, in whatever order, the container shows exactly
    one page: [nav] stays one of the numbers 1 to 4 of the menu items, and
    the page is the dashboard, the tasks, the notes or the budget
    accordingly; the notes page is mounted exactly while [nav] is 3. *)
Theorem one_page_at_a_time (cs : list MobileContainer.click) :
  let s := MobileContainer.run cs in
  1 <= MobileContainer.nav s <= 4
  /\ exists p,
       MobileContainer.mainContent s = [ p ]
       /\ (p = MobileContainer.Overview <-> MobileContainer.nav s = 1)
       /\ (p = MobileContainer.Todo <-> MobileContainer.nav s = 2)
       /\ (p = MobileContainer.Note <-> MobileContainer.nav s = 3)
       /\ (p = MobileContainer.Budget <-> MobileContainer.nav s = 4).
Proof.
  cbv zeta.
  assert (1 <= MobileContainer.nav (MobileContainer.run cs) <= 4) as Hnav.
  { induction cs as [|c cs IH] using rev_ind; [simpl; lia|].
    rewrite MobileContainer_run_snoc. now apply MobileContainer_step_nav. }
  split; [exact Hnav|].
  unfold MobileContainer.mainContent.
  set (n := MobileContainer.nav (MobileContainer.run cs)) in *.
  assert (n = 1 \/ n = 2 \/ n = 3 \/ n = 4) as [-> | [-> | [-> | ->]]] by lia; simpl.
  - exists MobileContainer.Overview. repeat split; intros; (reflexivity || discriminate || lia).
  - exists MobileContainer.Todo. repeat split; intros; (reflexivity || discriminate || lia).
  - exists MobileContainer.Note. repeat split; intros; (reflexivity || discriminate || lia).
  - exists MobileContainer.Budget. repeat split; intros; (reflexivity || discriminate || lia).
Qed.

(** X22: The profile modal is toggled by a function of the previous state: it
    is open exactly after an odd number of clicks on the profile picture
    and the Close button together, whatever else was clicked in between. *)
Theorem profile_modal_parity (cs : list MobileContainer.click) :
  MobileContainer.isProfileModalOpen (MobileContainer.run cs)
  = Nat.odd (length (List.filter MobileContainer.isToggle cs)).
Proof.
  induction cs as [|c cs IH] using rev_ind; [reflexivity|].
  rewrite MobileContainer_run_snoc, List.filter_app, length_app.
  destruct c as [| k | |]; simpl.
  - now rewrite Nat.add_0_r.
  - rewrite Nat.add_0_r, <- IH. unfold MobileContainer.step, MobileContainer.handle.
    now destruct (MobileContainer.navItems !! k) as [[label n]|].
  - rewrite Nat.add_1_r, Nat.odd_succ, <- Nat.negb_odd. unfold MobileContainer.step.
    simpl. now rewrite IH.
  - rewrite Nat.add_1_r, Nat.odd_succ, <- Nat.negb_odd. unfold MobileContainer.step.
    simpl. now rewrite IH.
Qed.

(** X23: A click on an item of the menu, after whatever else, selects the
    number of the item, closes the menu, leaves the profile modal as it is
    and shows the page of the item: the dashboard, the tasks, the notes or
    the budget for the first to the fourth item. *)
Theorem nav_item_shows_its_page
    (cs : list MobileContainer.click) (k : nat) (label : string) (navNumber : Z) :
  MobileContainer.navItems !! k = Some (label, navNumber) ->
  let s := MobileContainer.run (cs ++ [ MobileContainer.ClickNavItem k ]) in
  MobileContainer.nav s = navNumber
  /\ MobileContainer.isOpen s = false
  /\ MobileContainer.isProfileModalOpen s
     = MobileContainer.isProfileModalOpen (MobileContainer.run cs)
  /\ exists p,
       MobileContainer.mainContent s = [ p ]
       /\ (label, p) ∈ [ ("Dashboard", MobileContainer.Overview);
                         ("Tasks", MobileContainer.Todo);
                         ("Note", MobileContainer.Note);
                         ("Budget", MobileContainer.Budget) ].
Proof.
  intros Hk. cbv zeta. rewrite MobileContainer_run_snoc.
  unfold MobileContainer.step, MobileContainer.handle. rewrite Hk.
  destruct k as [|[|[|[|k]]]]; simpl in Hk; try discriminate;
    injection Hk as <- <-; simpl; (do 3 (split; [reflexivity|])); eexists;
    (split; [reflexivity|]); set_solver.
Qed.

Lemma nav_item_shows_its_page_witness :
  let s :=
    MobileContainer.run
      [ MobileContainer.ClickMenuButton; MobileContainer.ClickProfile;
        MobileContainer.ClickNavItem 2 ] in
  MobileContainer.nav s = 3
  /\ MobileContainer.isOpen s = false
  /\ MobileContainer.isProfileModalOpen s = true
  /\ exists p,
       MobileContainer.mainContent s = [ p ]
       /\ ("Note", p) ∈ [ ("Dashboard", MobileContainer.Overview);
                          ("Tasks", MobileContainer.Todo);
                          ("Note", MobileContainer.Note);
                          ("Budget", MobileContainer.Budget) ].
Proof.
  apply (nav_item_shows_its_page
           [ MobileContainer.ClickMenuButton; MobileContainer.ClickProfile ]
           2 "Note" 3 eq_refl).
Defined.

(** * The page when the user changes *)

(** X24: When the user of [useAuthState] becomes null the effect is cleaned up
    and not run again: the notes mirrored so far stay in the state and on
    the page, later snapshots and errors of the old subscription no longer
    reach it, and no handler sends a request. *)
Theorem sign_out_keeps_notes `{U : Unicode} (accepts : request -> bool) (w : world) :
  let w' := dispatch accepts (AuthState None) w in
  notes (view w') = notes (view w)
  /\ filteredNotes (view w') = filteredNotes (view w)
  /\ loading (view w') = loading (view w)
  /\ subscription w' = None
  /\ (forall docs, dispatch accepts (Snapshot docs) w' = w')
  /\ (forall e, dispatch accepts (SnapshotError e) w' = w')
  /\ (forall h now, sent (dispatch accepts (Handle h now) w') = sent w).
Proof.
  cbv zeta. do 4 (split; [reflexivity|]). do 2 (split; [reflexivity|]).
  intros h now.
  set (w' := dispatch accepts (AuthState None) w).
  assert (user (view w') = None) as Hu by reflexivity.
  cbn [dispatch].
  pose proof (call_no_user h (view w') now Hu) as H.
  destruct (call h (view w') now) as [acts|err]; [|reflexivity].
  now rewrite (exec_sent_no_request accepts acts w' H).
Qed.

